(** * Aromi-AI login page: [Frontend/script.js]

    A shallow embedding of the login-page script (theme persistence,
    password visibility, form validation, quick login, remembered email)
    together with the properties its specification states about it.

    The script touches three pieces of its environment, which the embedding
    keeps in one record: the [localStorage] key-value store, the handful of
    DOM nodes the script looks up at load time, and the timers it arms with
    [setTimeout].  Every handler of the script runs to completion and is a
    function from page to page. *)

From Stdlib Require Import NArith Ascii String List Bool Lia.
From stdpp Require Import gmap strings list.

Open Scope N_scope.

(** ** JavaScript strings

    A JavaScript string is a sequence of 16-bit code units; the regular
    expression of the script has no [u] flag, so it also works on code
    units. *)

Abbreviation code_unit := N (only parsing).
Abbreviation jsstring := (list N) (only parsing).

(** A string literal of the script (all of them are ASCII). *)
Definition js (s : string) : jsstring :=
  map N_of_ascii (list_ascii_of_string s).

(** [ToBoolean] on a string: only the empty string is falsy. *)
Definition truthy (s : jsstring) : bool :=
  match s with
  | [] => false
  | _ :: _ => true
  end.

(** [v || d] where [v] is [null] or a string. *)
Definition or_else (v : option jsstring) (d : jsstring) : jsstring :=
  match v with
  | Some s => if truthy s then s else d
  | None => d
  end.

(** [a === b] where [a] is [null] or a string and [b] is a string. *)
Definition strict_eq (a : option jsstring) (b : jsstring) : bool :=
  match a with
  | Some s => bool_decide (s = b)
  | None => false
  end.

(** The code units of ECMAScript's WhiteSpace and LineTerminator
    productions: what [\s] matches and what [trim] strips. *)
Definition isWhiteSpace (c : code_unit) : bool :=
  (c =? 0x09) || (c =? 0x0A) || (c =? 0x0B) || (c =? 0x0C) || (c =? 0x0D)
  || (c =? 0x20) || (c =? 0xA0) || (c =? 0x1680)
  || ((0x2000 <=? c) && (c <=? 0x200A))
  || (c =? 0x2028) || (c =? 0x2029) || (c =? 0x202F) || (c =? 0x205F)
  || (c =? 0x3000) || (c =? 0xFEFF).

Fixpoint trimStart (s : jsstring) : jsstring :=
  match s with
  | [] => []
  | c :: s' => if isWhiteSpace c then trimStart s' else s
  end.

Definition trimEnd (s : jsstring) : jsstring :=
  rev (trimStart (rev s)).

(** [String.prototype.trim]. *)
Definition trim (s : jsstring) : jsstring :=
  trimEnd (trimStart s).

(** ** Regular expressions

    The fragment of the ECMAScript pattern grammar that the script uses: a
    pattern is a sequence of terms, a term is an assertion, an atom, or an
    atom under [+]; an atom is a pattern character or a negated class. *)

Inductive ClassAtom : Type :=
| ClassSpace                      (* \s *)
| ClassChar (c : code_unit).

Inductive Atom : Type :=
| PatternChar (c : code_unit)     (* a literal, such as @ or \. *)
| NegClass (items : list ClassAtom).  (* [^...] *)

Inductive Term : Type :=
| AssertBegin                     (* ^ *)
| AssertEnd                       (* $ *)
| One (a : Atom)
| Plus (a : Atom).                (* a+ *)

Abbreviation Pattern := (list Term) (only parsing).

Definition classAtomMatches (i : ClassAtom) (c : code_unit) : bool :=
  match i with
  | ClassSpace => isWhiteSpace c
  | ClassChar d => c =? d
  end.

Definition atomMatches (a : Atom) (c : code_unit) : bool :=
  match a with
  | PatternChar d => c =? d
  | NegClass items => negb (existsb (fun i => classAtomMatches i c) items)
  end.

(** The backtracking matcher.  [atStart] tells whether the current position
    is index 0 of the input, [s] is the input from the current position on.
    [a+] is greedy: it first tries to take one more character and falls
    back to the rest of the pattern. *)
Fixpoint matchTerms (p : Pattern) : bool -> jsstring -> bool :=
  match p with
  | [] => fun _ _ => true
  | AssertBegin :: p' => fun atStart s => atStart && matchTerms p' atStart s
  | AssertEnd :: p' => fun atStart s =>
      match s with
      | [] => matchTerms p' atStart s
      | _ :: _ => false
      end
  | One a :: p' => fun _ s =>
      match s with
      | [] => false
      | c :: s' => atomMatches a c && matchTerms p' false s'
      end
  | Plus a :: p' =>
      fix more (atStart : bool) (s : jsstring) {struct s} : bool :=
        match s with
        | [] => false
        | c :: s' => atomMatches a c && (more false s' || matchTerms p' false s')
        end
  end.

(** The search of [RegExp.prototype.exec] without the [g] and [y] flags:
    try a match at index 0, then at every later index. *)
Fixpoint execFrom (p : Pattern) (atStart : bool) (s : jsstring) : bool :=
  matchTerms p atStart s
  || match s with
     | [] => false
     | _ :: s' => execFrom p false s'
     end.

(** [RegExp.prototype.test]. *)
Definition test (p : Pattern) (s : jsstring) : bool :=
  execFrom p true s.

(** ** Form validation *)

(** [/^[^\s@]+@[^\s@]+\.[^\s@]+$/] *)
Definition emailRegex : Pattern :=
  [ AssertBegin;
    Plus (NegClass [ClassSpace; ClassChar 0x40]);
    One (PatternChar 0x40);
    Plus (NegClass [ClassSpace; ClassChar 0x40]);
    One (PatternChar 0x2E);
    Plus (NegClass [ClassSpace; ClassChar 0x40]);
    AssertEnd ].

Definition isValidEmail (email : jsstring) : bool :=
  test emailRegex email.

Definition validateForm (email password : jsstring) : bool :=
  if negb (truthy email) || negb (truthy password) then false
  else if negb (isValidEmail email) then false
  else true.

(** ** The page

    The DOM nodes are the ones the script binds at load time; of each node
    the record keeps the properties the script reads or writes.  The markup
    of the page is not part of the sources, so nothing is assumed about the
    initial values: the theorems below quantify over every page. *)

(** What a timer does when it fires. *)
Inductive Callback : Type :=
| SetLocationHref (url : jsstring).

Record Page : Type := mkPage {
  (* window.localStorage *)
  localStorage : gmap (list N) (list N);
  (* document.documentElement, attribute data-theme *)
  dataTheme : option jsstring;
  (* themeToggle.querySelector('.fa-sun').style.opacity *)
  sunIconOpacity : jsstring;
  (* themeToggle.querySelector('.fa-moon').style.opacity *)
  moonIconOpacity : jsstring;
  (* themeLabel.textContent *)
  themeLabelText : jsstring;
  (* passwordInput, attribute type *)
  passwordInputType : option jsstring;
  (* passwordInput.value *)
  passwordInputValue : jsstring;
  (* passwordToggle.querySelector('i').className *)
  passwordIconClassName : jsstring;
  (* emailInput.value *)
  emailInputValue : jsstring;
  (* document.getElementById('rememberMe').checked *)
  rememberMeChecked : bool;
  (* container.classList *)
  containerClassList : list jsstring;
  (* timers armed with setTimeout and not fired yet: callback and delay *)
  timeouts : list (Callback * N)
}.

(** Field updates. *)
Definition withLocalStorage (f : gmap (list N) (list N) -> gmap (list N) (list N))
    (pg : Page) : Page :=
  mkPage (f (localStorage pg)) (dataTheme pg) (sunIconOpacity pg)
    (moonIconOpacity pg) (themeLabelText pg) (passwordInputType pg)
    (passwordInputValue pg) (passwordIconClassName pg) (emailInputValue pg)
    (rememberMeChecked pg) (containerClassList pg) (timeouts pg).

Definition withDataTheme (v : option jsstring) (pg : Page) : Page :=
  mkPage (localStorage pg) v (sunIconOpacity pg)
    (moonIconOpacity pg) (themeLabelText pg) (passwordInputType pg)
    (passwordInputValue pg) (passwordIconClassName pg) (emailInputValue pg)
    (rememberMeChecked pg) (containerClassList pg) (timeouts pg).

Definition withThemeToggle (sun moon label : jsstring) (pg : Page) : Page :=
  mkPage (localStorage pg) (dataTheme pg) sun moon label (passwordInputType pg)
    (passwordInputValue pg) (passwordIconClassName pg) (emailInputValue pg)
    (rememberMeChecked pg) (containerClassList pg) (timeouts pg).

Definition withPasswordInputType (v : option jsstring) (pg : Page) : Page :=
  mkPage (localStorage pg) (dataTheme pg) (sunIconOpacity pg)
    (moonIconOpacity pg) (themeLabelText pg) v
    (passwordInputValue pg) (passwordIconClassName pg) (emailInputValue pg)
    (rememberMeChecked pg) (containerClassList pg) (timeouts pg).

Definition withPasswordInputValue (v : jsstring) (pg : Page) : Page :=
  mkPage (localStorage pg) (dataTheme pg) (sunIconOpacity pg)
    (moonIconOpacity pg) (themeLabelText pg) (passwordInputType pg)
    v (passwordIconClassName pg) (emailInputValue pg)
    (rememberMeChecked pg) (containerClassList pg) (timeouts pg).

Definition withPasswordIconClassName (v : jsstring) (pg : Page) : Page :=
  mkPage (localStorage pg) (dataTheme pg) (sunIconOpacity pg)
    (moonIconOpacity pg) (themeLabelText pg) (passwordInputType pg)
    (passwordInputValue pg) v (emailInputValue pg)
    (rememberMeChecked pg) (containerClassList pg) (timeouts pg).

Definition withEmailInputValue (v : jsstring) (pg : Page) : Page :=
  mkPage (localStorage pg) (dataTheme pg) (sunIconOpacity pg)
    (moonIconOpacity pg) (themeLabelText pg) (passwordInputType pg)
    (passwordInputValue pg) (passwordIconClassName pg) v
    (rememberMeChecked pg) (containerClassList pg) (timeouts pg).

Definition withRememberMeChecked (v : bool) (pg : Page) : Page :=
  mkPage (localStorage pg) (dataTheme pg) (sunIconOpacity pg)
    (moonIconOpacity pg) (themeLabelText pg) (passwordInputType pg)
    (passwordInputValue pg) (passwordIconClassName pg) (emailInputValue pg)
    v (containerClassList pg) (timeouts pg).

Definition withContainerClassList (v : list jsstring) (pg : Page) : Page :=
  mkPage (localStorage pg) (dataTheme pg) (sunIconOpacity pg)
    (moonIconOpacity pg) (themeLabelText pg) (passwordInputType pg)
    (passwordInputValue pg) (passwordIconClassName pg) (emailInputValue pg)
    (rememberMeChecked pg) v (timeouts pg).

Definition withTimeouts (v : list (Callback * N)) (pg : Page) : Page :=
  mkPage (localStorage pg) (dataTheme pg) (sunIconOpacity pg)
    (moonIconOpacity pg) (themeLabelText pg) (passwordInputType pg)
    (passwordInputValue pg) (passwordIconClassName pg) (emailInputValue pg)
    (rememberMeChecked pg) (containerClassList pg) v.

(** The Storage interface. *)
Definition getItem (key : jsstring) (pg : Page) : option jsstring :=
  localStorage pg !! key.

Definition setItem (key value : jsstring) (pg : Page) : Page :=
  withLocalStorage (insert key value) pg.

Definition removeItem (key : jsstring) (pg : Page) : Page :=
  withLocalStorage (delete key) pg.

(** [DOMTokenList.add]: a token that is already there is not added again. *)
Definition classListAdd (token : jsstring) (l : list jsstring) : list jsstring :=
  if bool_decide (token ∈ l) then l else l ++ [token].

(** [setTimeout(callback, delay)]. *)
Definition setTimeout (cb : Callback) (delay : N) (pg : Page) : Page :=
  withTimeouts (timeouts pg ++ [(cb, delay)]) pg.

(** ** Theme management *)

Definition updateThemeToggle (theme : jsstring) (pg : Page) : Page :=
  if bool_decide (theme = js "dark")
  then withThemeToggle (js "0.5") (js "1") (js "Dark Mode") pg
  else withThemeToggle (js "1") (js "0.5") (js "Light Mode") pg.

(** The preference as the script reads it from storage:
    [localStorage.getItem('theme') || 'light']. *)
Definition savedTheme (pg : Page) : jsstring :=
  or_else (getItem (js "theme") pg) (js "light").

Definition initTheme (pg : Page) : Page :=
  let theme := savedTheme pg in
  let pg := withDataTheme (Some theme) pg in
  updateThemeToggle theme pg.

Definition toggleTheme (pg : Page) : Page :=
  let currentTheme := dataTheme pg in
  let newTheme :=
    if strict_eq currentTheme (js "light") then js "dark" else js "light" in
  let pg := withDataTheme (Some newTheme) pg in
  let pg := setItem (js "theme") newTheme pg in
  updateThemeToggle newTheme pg.

(** ** Password toggle *)

Definition togglePasswordVisibility (pg : Page) : Page :=
  let type :=
    if strict_eq (passwordInputType pg) (js "password")
    then js "text" else js "password" in
  let pg := withPasswordInputType (Some type) pg in
  withPasswordIconClassName
    (if bool_decide (type = js "password")
     then js "fas fa-eye" else js "fas fa-eye-slash") pg.

(** ** Navigation *)

Definition navigateToDashboard (pg : Page) : Page :=
  let pg :=
    withContainerClassList (classListAdd (js "fade-out") (containerClassList pg)) pg in
  setTimeout (SetLocationHref (js "dashboard.html")) 200 pg.

(** ** Quick login *)

Definition quickLogin (pg : Page) : Page :=
  let demoEmail := js "hackathon@aromi.ai" in
  let pg := withEmailInputValue demoEmail pg in
  let pg := withPasswordInputValue (js "agentic_ai_demo") pg in
  navigateToDashboard pg.

(** ** Event listeners *)

(** The [submit] listener of the login form.  [e.preventDefault()] only
    concerns the browser's own submission and leaves the page as it is. *)
Definition onSubmit (pg : Page) : Page :=
  let email := trim (emailInputValue pg) in
  let password := passwordInputValue pg in
  let rememberMe := rememberMeChecked pg in
  if validateForm email password then
    let pg :=
      if rememberMe then setItem (js "rememberedEmail") email pg
      else removeItem (js "rememberedEmail") pg in
    navigateToDashboard pg
  else pg.

(** The [DOMContentLoaded] listener. *)
Definition onDOMContentLoaded (pg : Page) : Page :=
  let pg := initTheme pg in
  match getItem (js "rememberedEmail") pg with
  | Some rememberedEmail =>
      if truthy rememberedEmail then
        let pg := withEmailInputValue rememberedEmail pg in
        withRememberMeChecked true pg
      else pg
  | None => pg
  end.

(** ** The controller as a transition system

    The events the page reacts to: the five listeners of the script, and
    the user editing the form between them. *)
Inductive Event : Type :=
| DOMContentLoaded
| ThemeToggleClick
| PasswordToggleClick
| QuickLoginClick
| LoginFormSubmit
| EmailTyped (value : jsstring)
| PasswordTyped (value : jsstring)
| RememberMeSet (checked : bool).

#[export] Instance Event_eq_dec : EqDecision Event.
Proof. solve_decision. Defined.

Definition handle (ev : Event) (pg : Page) : Page :=
  match ev with
  | DOMContentLoaded => onDOMContentLoaded pg
  | ThemeToggleClick => toggleTheme pg
  | PasswordToggleClick => togglePasswordVisibility pg
  | QuickLoginClick => quickLogin pg
  | LoginFormSubmit => onSubmit pg
  | EmailTyped v => withEmailInputValue v pg
  | PasswordTyped v => withPasswordInputValue v pg
  | RememberMeSet b => withRememberMeChecked b pg
  end.

Fixpoint run (evs : list Event) (pg : Page) : Page :=
  match evs with
  | [] => pg
  | ev :: evs' => run evs' (handle ev pg)
  end.

(** The operation the specification calls [submitForm(email, password,
    rememberMe)]: the form holds the three values and is submitted. *)
Definition submitForm (email password : jsstring) (rememberMe : bool)
    (pg : Page) : Page :=
  run [EmailTyped email; PasswordTyped password; RememberMeSet rememberMe;
       LoginFormSubmit] pg.

(** A page on first visit: nothing stored, nothing typed, no timer armed. *)
Definition freshPage : Page :=
  mkPage ∅ None [] [] [] None [] [] [] false [] [].

(** ** The vocabulary of the specification *)

(** "A character that is neither whitespace nor @". *)
Definition plainChar (c : code_unit) : Prop :=
  isWhiteSpace c = false ∧ c ≠ 0x40.

(** The shape of an accepted email in the words of the specification: one
    or more plain characters, an @, one or more plain characters, a dot,
    one or more plain characters. *)
Definition emailShape (s : jsstring) : Prop :=
  ∃ localpart domain tld : jsstring,
    s = localpart ++ [0x40] ++ domain ++ [0x2E] ++ tld
    ∧ localpart ≠ [] ∧ domain ≠ [] ∧ tld ≠ []
    ∧ Forall plainChar localpart ∧ Forall plainChar domain ∧ Forall plainChar tld.

(** The theme part of what the page shows. *)
Definition lightRender (pg : Page) : Prop :=
  sunIconOpacity pg = js "1" ∧ moonIconOpacity pg = js "0.5"
  ∧ themeLabelText pg = js "Light Mode".

Definition darkRender (pg : Page) : Prop :=
  sunIconOpacity pg = js "0.5" ∧ moonIconOpacity pg = js "1"
  ∧ themeLabelText pg = js "Dark Mode".

(** The persisted preference and the attribute of the document root agree:
    the root shows the preference that the store holds, where a store
    without a (non-empty) theme holds the default, light. *)
Definition themeAgrees (pg : Page) : Prop :=
  dataTheme pg = Some (savedTheme pg).

(** A theme state of the two-element space: the root attribute is "light"
    or "dark", the persisted preference is the same, and the toggle shows
    it. *)
Definition themeCoherent (pg : Page) : Prop :=
  (dataTheme pg = Some (js "light") ∧ savedTheme pg = js "light" ∧ lightRender pg)
  ∨ (dataTheme pg = Some (js "dark") ∧ savedTheme pg = js "dark" ∧ darkRender pg).

(** The store holds one of the two themes the script writes, and the root
    attribute is that very string. *)
Definition themeWritten (pg : Page) : Prop :=
  ∃ t, (t = js "light" ∨ t = js "dark")
       ∧ getItem (js "theme") pg = Some t ∧ dataTheme pg = Some t.

(** A remembered email, if there is one, is accepted by the validation
    pattern. *)
Definition rememberedEmailValid (pg : Page) : bool :=
  match getItem (js "rememberedEmail") pg with
  | Some v => isValidEmail v
  | None => true
  end.

(** ** Sample pages *)

(** A remembered email, the box unchecked and an address without a dot. *)
Definition staleSubmitPage : Page :=
  withEmailInputValue (js "user@example")
    (withPasswordInputValue (js "pw")
       (setItem (js "rememberedEmail") (js "a@b.com") freshPage)).

(** A store whose theme is not one of the two the script writes. *)
Definition bluePage : Page :=
  setItem (js "theme") (js "blue") freshPage.

(** A form with text in both fields and the password shown. *)
Definition typedPage : Page :=
  withPasswordInputType (Some (js "text"))
    (withEmailInputValue (js "me@example.org")
       (withPasswordInputValue (js "secret")
          (setItem (js "theme") (js "dark") freshPage))).

(** A form ready to be submitted, with the box checked. *)
Definition filledPage : Page :=
  withRememberMeChecked true
    (withEmailInputValue (js "a@b.com")
       (withPasswordInputValue (js "x") freshPage)).

(** Whether an event, on a given page, gets to [navigateToDashboard]: a
    quick-login click always, a submission when the form validates. *)
Definition navigates (ev : Event) (pg : Page) : bool :=
  match ev with
  | QuickLoginClick => true
  | LoginFormSubmit =>
      validateForm (trim (emailInputValue pg)) (passwordInputValue pg)
  | _ => false
  end.

(** ** Further vocabulary *)

(** The timer that [navigateToDashboard] arms. *)
Definition dashboardTimer : Callback * N :=
  (SetLocationHref (js "dashboard.html"), 200).

(** The events whose listeners can call [navigateToDashboard]. *)
Definition isLoginEvent (ev : Event) : bool :=
  match ev with
  | QuickLoginClick | LoginFormSubmit => true
  | _ => false
  end.

(** The toggle shows what the document root says: dark mode for the root
    attribute "dark", light mode for anything else. *)
Definition renderMatchesRoot (pg : Page) : Prop :=
  (dataTheme pg = Some (js "dark") ∧ darkRender pg)
  ∨ (dataTheme pg ≠ Some (js "dark") ∧ lightRender pg).

(** The password field and its icon after a toggle: masked with the open
    eye, or plain text with the struck eye. *)
Definition passwordToggleSettled (pg : Page) : Prop :=
  (passwordInputType pg = Some (js "password")
   ∧ passwordIconClassName pg = js "fas fa-eye")
  ∨ (passwordInputType pg = Some (js "text")
     ∧ passwordIconClassName pg = js "fas fa-eye-slash").

(** How many events of a sequence are login events. *)
Definition loginEventCount (evs : list Event) : nat :=
  length (List.filter isLoginEvent evs).

(** ** Examples *)

Example validateForm_user : validateForm (js "user@example.com") (js "pw") = true.
Proof. reflexivity. Qed.

Example validateForm_nodot : validateForm (js "user@example") (js "pw") = false.
Proof. reflexivity. Qed.

Example validateForm_subdomain : validateForm (js "a@b.c.d") (js "pw") = true.
Proof. reflexivity. Qed.

Example trim_both : trim (js "  a b ") = js "a b".
Proof. reflexivity. Qed.

(** First visit: light theme, empty email field, box unchecked. *)
Example freshPage_loaded :
  dataTheme (onDOMContentLoaded freshPage) = Some (js "light")
  ∧ themeLabelText (onDOMContentLoaded freshPage) = js "Light Mode"
  ∧ emailInputValue (onDOMContentLoaded freshPage) = []
  ∧ rememberMeChecked (onDOMContentLoaded freshPage) = false.
Proof. repeat split. Qed.

(** A stored dark theme is shown on load. *)
Example typedPage_loaded :
  dataTheme (onDOMContentLoaded typedPage) = Some (js "dark")
  ∧ themeLabelText (onDOMContentLoaded typedPage) = js "Dark Mode"
  ∧ sunIconOpacity (onDOMContentLoaded typedPage) = js "0.5"
  ∧ moonIconOpacity (onDOMContentLoaded typedPage) = js "1".
Proof. repeat split. Qed.

(** A remembered email is put back in the field and the box is checked. *)
Example staleSubmitPage_loaded :
  emailInputValue (onDOMContentLoaded staleSubmitPage) = js "a@b.com"
  ∧ rememberMeChecked (onDOMContentLoaded staleSubmitPage) = true.
Proof. repeat split. Qed.

(** A shown password is masked again; its value stays. *)
Example typedPage_masked :
  passwordInputType (togglePasswordVisibility typedPage) = Some (js "password")
  ∧ passwordIconClassName (togglePasswordVisibility typedPage) = js "fas fa-eye"
  ∧ passwordInputValue (togglePasswordVisibility typedPage) = js "secret".
Proof. repeat split. Qed.

(** Quick login overwrites what was typed and arms the redirect. *)
Example typedPage_quickLogin :
  emailInputValue (quickLogin typedPage) = js "hackathon@aromi.ai"
  ∧ containerClassList (quickLogin typedPage) = [js "fade-out"]
  ∧ timeouts (quickLogin typedPage) = [(SetLocationHref (js "dashboard.html"), 200)].
Proof. repeat split. Qed.

(** ** The matcher *)

Section Matcher.

Variable a : Atom.
Variable p : list Term.

Lemma matchTerms_Plus_cons (b : bool) (c : N) (s : list N) :
  matchTerms (Plus a :: p) b (c :: s)
  = atomMatches a c && (matchTerms (Plus a :: p) false s || matchTerms p false s).
Proof. reflexivity. Qed.

Lemma matchTerms_Plus_nil (b : bool) : matchTerms (Plus a :: p) b [] = false.
Proof. reflexivity. Qed.

(** [a+] followed by [p] matches exactly when a non-empty prefix is made of
    characters of [a] and [p] matches what is left. *)
Lemma matchTerms_Plus (b : bool) (s : list N) :
  matchTerms (Plus a :: p) b s = true
  ↔ ∃ pre rest : list N,
      s = pre ++ rest ∧ pre ≠ []
      ∧ Forall (λ c, atomMatches a c = true) pre
      ∧ matchTerms p false rest = true.
Proof.
  revert b. induction s as [|c s IH]; intros b.
  - rewrite matchTerms_Plus_nil. split; [discriminate|].
    intros (pre & rest & Hs & Hne & _). symmetry in Hs.
    apply app_eq_nil in Hs as [-> _]. congruence.
  - rewrite matchTerms_Plus_cons, andb_true_iff, orb_true_iff, (IH false).
    split.
    + intros [Hc [(pre & rest & -> & _ & Hall & Hrest) | Hrest]].
      * exists (c :: pre), rest. repeat split; auto; discriminate.
      * exists [c], s. repeat split; auto; discriminate.
    + intros (pre & rest & Hs & Hne & Hall & Hrest).
      destruct pre as [|c' pre]; [congruence|].
      simpl in Hs. injection Hs as <- ->.
      inversion Hall as [|? ? Hc Hall']; subst. split; [assumption|].
      destruct pre as [|c2 pre].
      * right. assumption.
      * left. exists (c2 :: pre), rest. repeat split; auto; discriminate.
Qed.

Lemma matchTerms_One (b : bool) (s : list N) :
  matchTerms (One a :: p) b s = true
  ↔ ∃ (c : N) (rest : list N),
      s = c :: rest ∧ atomMatches a c = true ∧ matchTerms p false rest = true.
Proof.
  destruct s as [|c s]; simpl.
  - split; [discriminate|]. intros (? & ? & ? & _). discriminate.
  - rewrite andb_true_iff. split.
    + intros [? ?]. eauto.
    + intros (? & ? & [= <- <-] & ? & ?). auto.
Qed.

(** A pattern that starts with [^] matches at index 0 or nowhere. *)
Lemma execFrom_AssertBegin (s : list N) :
  execFrom (AssertBegin :: p) false s = false.
Proof. induction s as [|c s IH]; simpl; [reflexivity | exact IH]. Qed.

Lemma test_AssertBegin (s : list N) :
  test (AssertBegin :: p) s = matchTerms p true s.
Proof.
  unfold test. destruct s as [|c s]; simpl execFrom.
  - simpl. apply orb_false_r.
  - rewrite execFrom_AssertBegin. simpl. apply orb_false_r.
Qed.

End Matcher.

Lemma matchTerms_AssertEnd (b : bool) (s : list N) :
  matchTerms [AssertEnd] b s = true ↔ s = [].
Proof. destruct s; simpl; split; congruence. Qed.

Lemma atomMatches_plain (c : N) :
  atomMatches (NegClass [ClassSpace; ClassChar 0x40]) c = true ↔ plainChar c.
Proof.
  unfold plainChar. simpl. rewrite orb_false_r, negb_true_iff, orb_false_iff.
  rewrite N.eqb_neq. reflexivity.
Qed.

Lemma Forall_plain (l : list N) :
  Forall (λ c, atomMatches (NegClass [ClassSpace; ClassChar 0x40]) c = true) l
  ↔ Forall plainChar l.
Proof. apply Forall_iff. intros c. apply atomMatches_plain. Qed.

(** The regular expression of the script accepts exactly the strings of the
    shape the specification describes. *)
Lemma isValidEmail_emailShape (s : list N) :
  isValidEmail s = true ↔ emailShape s.
Proof.
  unfold isValidEmail, emailRegex, emailShape.
  rewrite test_AssertBegin. rewrite matchTerms_Plus. split.
  - intros (l & r1 & -> & Hl & Hal & H1).
    apply matchTerms_One in H1 as (c1 & r2 & -> & Hc1 & H2).
    apply matchTerms_Plus in H2 as (d & r3 & -> & Hd & Had & H3).
    apply matchTerms_One in H3 as (c2 & r4 & -> & Hc2 & H4).
    apply matchTerms_Plus in H4 as (t & r5 & -> & Ht & Hat & H5).
    apply matchTerms_AssertEnd in H5 as ->.
    simpl in Hc1, Hc2. apply N.eqb_eq in Hc1 as ->. apply N.eqb_eq in Hc2 as ->.
    exists l, d, t. rewrite app_nil_r.
    rewrite Forall_plain in Hal. rewrite Forall_plain in Had.
    rewrite Forall_plain in Hat. repeat split; auto.
  - intros (l & d & t & -> & Hl & Hd & Ht & Hal & Had & Hat).
    exists l, ([0x40] ++ d ++ [0x2E] ++ t). repeat split; auto.
    { apply Forall_plain. assumption. }
    apply matchTerms_One. exists 0x40, (d ++ [0x2E] ++ t).
    repeat split; auto.
    apply matchTerms_Plus. exists d, ([0x2E] ++ t). repeat split; auto.
    { apply Forall_plain. assumption. }
    apply matchTerms_One. exists 0x2E, t. repeat split; auto.
    apply matchTerms_Plus. exists t, []. rewrite app_nil_r. repeat split; auto.
    apply Forall_plain. assumption.
Qed.

Lemma truthy_true (s : list N) : truthy s = true ↔ s ≠ [].
Proof. destruct s; simpl; split; congruence. Qed.

Lemma validateForm_true (email password : list N) :
  validateForm email password = true
  ↔ truthy email = true ∧ truthy password = true ∧ isValidEmail email = true.
Proof.
  unfold validateForm.
  destruct (truthy email), (truthy password), (isValidEmail email); simpl;
    intuition congruence.
Qed.

Lemma emailShape_has_at_and_dot (s : list N) :
  emailShape s → 0x40 ∈ s ∧ 0x2E ∈ s.
Proof.
  intros (l & d & t & -> & _). split.
  - rewrite !elem_of_app. right. left. apply list_elem_of_singleton. reflexivity.
  - rewrite !elem_of_app. right. right. right. left.
    apply list_elem_of_singleton. reflexivity.
Qed.

(** C1. [validateForm] returns [true] exactly when both strings are non-empty
    and the email has the shape plain+ @ plain+ . plain+, where a plain
    character is neither whitespace nor @; in particular it returns [false]
    when a field is empty or the email has no @ or no dot. *)
Theorem validateForm_iff_shape (email password : list N) :
  (validateForm email password = true
   ↔ email ≠ [] ∧ password ≠ [] ∧ emailShape email)
  ∧ (email = [] ∨ password = [] ∨ 0x40 ∉ email ∨ 0x2E ∉ email
     → validateForm email password = false).
Proof.
  assert (Hiff : validateForm email password = true
                 ↔ email ≠ [] ∧ password ≠ [] ∧ emailShape email).
  { rewrite validateForm_true, !truthy_true, isValidEmail_emailShape.
    reflexivity. }
  split; [exact Hiff|].
  intros Hbad. apply not_true_is_false. intros Hv.
  apply Hiff in Hv as (He & Hp & Hshape).
  apply emailShape_has_at_and_dot in Hshape as [Hat Hdot].
  destruct Hbad as [?|[?|[?|?]]]; contradiction.
Qed.

(** ** Trimming *)

Lemma trimStart_spec (s : list N) :
  ∃ pre : list N,
    s = pre ++ trimStart s
    ∧ Forall (λ c, isWhiteSpace c = true) pre
    ∧ (∀ c rest, trimStart s = c :: rest → isWhiteSpace c = false).
Proof.
  induction s as [|c s (pre & Hs & Hpre & Hhead)].
  - exists []. repeat split; [constructor | discriminate].
  - simpl. destruct (isWhiteSpace c) eqn:Hc.
    + exists (c :: pre). split; [simpl; congruence|].
      split; [by constructor | exact Hhead].
    + exists []. split; [reflexivity|]. split; [constructor|].
      intros c' rest [= <- _]. exact Hc.
Qed.

Lemma trimEnd_spec (s : list N) :
  ∃ post : list N,
    s = trimEnd s ++ post
    ∧ Forall (λ c, isWhiteSpace c = true) post
    ∧ (∀ rest c, trimEnd s = rest ++ [c] → isWhiteSpace c = false).
Proof.
  destruct (trimStart_spec (rev s)) as (pre & Hs & Hpre & Hhead).
  exists (rev pre). unfold trimEnd. split; [|split].
  - rewrite <- rev_app_distr, <- Hs. symmetry. apply rev_involutive.
  - apply Forall_rev, Hpre.
  - intros rest c Hrev. apply (Hhead c (rev rest)).
    rewrite <- (rev_involutive (trimStart (rev s))), Hrev.
    rewrite rev_app_distr. reflexivity.
Qed.

(** [trim] takes whitespace, and nothing else, off both ends. *)
Lemma trim_spec (s : list N) :
  ∃ pre post : list N,
    s = pre ++ trim s ++ post
    ∧ Forall (λ c, isWhiteSpace c = true) pre
    ∧ Forall (λ c, isWhiteSpace c = true) post
    ∧ (∀ c rest, trim s = c :: rest → isWhiteSpace c = false)
    ∧ (∀ rest c, trim s = rest ++ [c] → isWhiteSpace c = false).
Proof.
  destruct (trimStart_spec s) as (pre & Hs & Hpre & Hhead).
  destruct (trimEnd_spec (trimStart s)) as (post & Ht & Hpost & Hlast).
  exists pre, post. unfold trim. split; [|split; [|split; [|split]]]; auto.
  - rewrite <- Ht. exact Hs.
  - intros c rest Hc. apply (Hhead c (rest ++ post)).
    rewrite Ht, Hc. reflexivity.
Qed.

(** ** Storage and navigation *)

Lemma theme_key_ne_rememberedEmail : js "theme" ≠ js "rememberedEmail".
Proof. intros H. vm_compute in H. discriminate. Qed.

Lemma light_ne_dark : js "light" ≠ js "dark".
Proof. intros H. vm_compute in H. discriminate. Qed.

Lemma getItem_setItem (k v : list N) (pg : Page) :
  getItem k (setItem k v pg) = Some v.
Proof. unfold getItem, setItem. simpl. apply lookup_insert_eq. Qed.

Lemma getItem_setItem_ne (k k' v : list N) (pg : Page) :
  k ≠ k' → getItem k' (setItem k v pg) = getItem k' pg.
Proof. intros Hne. unfold getItem, setItem. simpl. by apply lookup_insert_ne. Qed.

Lemma getItem_removeItem (k : list N) (pg : Page) :
  getItem k (removeItem k pg) = None.
Proof. unfold getItem, removeItem. simpl. apply lookup_delete_eq. Qed.

Lemma getItem_removeItem_ne (k k' : list N) (pg : Page) :
  k ≠ k' → getItem k' (removeItem k pg) = getItem k' pg.
Proof. intros Hne. unfold getItem, removeItem. simpl. by apply lookup_delete_ne. Qed.

Lemma classListAdd_elem (token : list N) (l : list (list N)) :
  token ∈ classListAdd token l.
Proof.
  unfold classListAdd. case_bool_decide as Hin; [assumption|].
  apply elem_of_app. right. apply list_elem_of_singleton. reflexivity.
Qed.

(** What a call of [navigateToDashboard] leaves behind: the fade-out class on
    the container and one more armed timer that redirects to the dashboard;
    nothing else changes. *)
Lemma navigateToDashboard_effect (pg : Page) :
  js "fade-out" ∈ containerClassList (navigateToDashboard pg)
  ∧ timeouts (navigateToDashboard pg)
    = timeouts pg ++ [(SetLocationHref (js "dashboard.html"), 200)]
  ∧ localStorage (navigateToDashboard pg) = localStorage pg
  ∧ emailInputValue (navigateToDashboard pg) = emailInputValue pg
  ∧ passwordInputValue (navigateToDashboard pg) = passwordInputValue pg.
Proof.
  unfold navigateToDashboard, setTimeout. simpl.
  split; [apply classListAdd_elem|]. repeat split.
Qed.

Lemma getItem_navigateToDashboard (k : list N) (pg : Page) :
  getItem k (navigateToDashboard pg) = getItem k pg.
Proof. reflexivity. Qed.

Lemma submitForm_onSubmit (email password : list N) (rememberMe : bool) (pg : Page) :
  submitForm email password rememberMe pg
  = onSubmit (withRememberMeChecked rememberMe
               (withPasswordInputValue password (withEmailInputValue email pg))).
Proof. reflexivity. Qed.

(** C2. The submit listener validates the trimmed email (the content of
    the email field without the whitespace at its two ends); when validation
    succeeds it stores the trimmed email under [rememberedEmail] if the box
    is checked, removes that key if it is not, and then calls
    [navigateToDashboard].  After [submitForm("a@b.com","x",true)] the
    remembered email is "a@b.com"; after a following
    [submitForm("c@d.com","y",false)] it is absent. *)
Theorem onSubmit_valid_persists_and_navigates :
  (∀ pg : Page,
     validateForm (trim (emailInputValue pg)) (passwordInputValue pg) = true →
     onSubmit pg
     = navigateToDashboard
         (if rememberMeChecked pg
          then setItem (js "rememberedEmail") (trim (emailInputValue pg)) pg
          else removeItem (js "rememberedEmail") pg)
     ∧ getItem (js "rememberedEmail") (onSubmit pg)
       = (if rememberMeChecked pg then Some (trim (emailInputValue pg)) else None)
     ∧ timeouts (onSubmit pg)
       = timeouts pg ++ [(SetLocationHref (js "dashboard.html"), 200)]
     ∧ js "fade-out" ∈ containerClassList (onSubmit pg))
  ∧ (∀ (email password : list N) (rememberMe : bool) (pg : Page),
       validateForm (trim email) password = true →
       getItem (js "rememberedEmail") (submitForm email password rememberMe pg)
       = (if rememberMe then Some (trim email) else None)
       ∧ timeouts (submitForm email password rememberMe pg)
         = timeouts pg ++ [(SetLocationHref (js "dashboard.html"), 200)]
       ∧ js "fade-out" ∈ containerClassList (submitForm email password rememberMe pg))
  ∧ (∀ email : list N,
       ∃ pre post : list N,
         email = pre ++ trim email ++ post
         ∧ Forall (λ c, isWhiteSpace c = true) pre
         ∧ Forall (λ c, isWhiteSpace c = true) post
         ∧ (∀ c rest, trim email = c :: rest → isWhiteSpace c = false)
         ∧ (∀ rest c, trim email = rest ++ [c] → isWhiteSpace c = false))
  ∧ (∀ pg : Page,
       getItem (js "rememberedEmail") (submitForm (js "a@b.com") (js "x") true pg)
       = Some (js "a@b.com")
       ∧ getItem (js "rememberedEmail")
           (submitForm (js "c@d.com") (js "y") false
              (submitForm (js "a@b.com") (js "x") true pg))
         = None).
Proof.
  assert (Hgen : ∀ pg : Page,
     validateForm (trim (emailInputValue pg)) (passwordInputValue pg) = true →
     onSubmit pg
     = navigateToDashboard
         (if rememberMeChecked pg
          then setItem (js "rememberedEmail") (trim (emailInputValue pg)) pg
          else removeItem (js "rememberedEmail") pg)
     ∧ getItem (js "rememberedEmail") (onSubmit pg)
       = (if rememberMeChecked pg then Some (trim (emailInputValue pg)) else None)
     ∧ timeouts (onSubmit pg)
       = timeouts pg ++ [(SetLocationHref (js "dashboard.html"), 200)]
     ∧ js "fade-out" ∈ containerClassList (onSubmit pg)).
  { intros pg Hv.
    assert (Heq : onSubmit pg
       = navigateToDashboard
           (if rememberMeChecked pg
            then setItem (js "rememberedEmail") (trim (emailInputValue pg)) pg
            else removeItem (js "rememberedEmail") pg)).
    { unfold onSubmit. rewrite Hv. reflexivity. }
    rewrite Heq. split; [reflexivity|].
    rewrite getItem_navigateToDashboard.
    destruct (navigateToDashboard_effect
                (if rememberMeChecked pg
                 then setItem (js "rememberedEmail") (trim (emailInputValue pg)) pg
                 else removeItem (js "rememberedEmail") pg))
      as (Hfade & Htimers & _).
    rewrite Htimers.
    destruct (rememberMeChecked pg).
    - rewrite getItem_setItem. repeat split; auto.
    - rewrite getItem_removeItem. repeat split; auto. }
  assert (Hform : ∀ (email password : list N) (rememberMe : bool) (pg : Page),
       validateForm (trim email) password = true →
       getItem (js "rememberedEmail") (submitForm email password rememberMe pg)
       = (if rememberMe then Some (trim email) else None)
       ∧ timeouts (submitForm email password rememberMe pg)
         = timeouts pg ++ [(SetLocationHref (js "dashboard.html"), 200)]
       ∧ js "fade-out" ∈ containerClassList (submitForm email password rememberMe pg)).
  { intros email password rememberMe pg Hv. rewrite submitForm_onSubmit.
    destruct (Hgen (withRememberMeChecked rememberMe
                (withPasswordInputValue password (withEmailInputValue email pg))) Hv)
      as (_ & Hget & Htimers & Hfade).
    auto. }
  split; [exact Hgen|]. split; [exact Hform|].
  split; [intros email; apply trim_spec|].
  intros pg. split.
  - apply (Hform (js "a@b.com") (js "x") true pg). reflexivity.
  - apply (Hform (js "c@d.com") (js "y") false). reflexivity.
Qed.

(** The general part of C2 on a page where the form holds a padded address
    and the box is checked. *)
Lemma onSubmit_valid_persists_and_navigates_witness :
  validateForm
    (trim (emailInputValue (withRememberMeChecked true (withPasswordInputValue (js "x")
       (withEmailInputValue (js "  a@b.com ") freshPage)))))
    (passwordInputValue (withRememberMeChecked true (withPasswordInputValue (js "x")
       (withEmailInputValue (js "  a@b.com ") freshPage)))) = true
  ∧ getItem (js "rememberedEmail")
      (onSubmit (withRememberMeChecked true (withPasswordInputValue (js "x")
         (withEmailInputValue (js "  a@b.com ") freshPage))))
    = Some (js "a@b.com").
Proof.
  split; [reflexivity|].
  apply (proj1 (proj2 (proj1 onSubmit_valid_persists_and_navigates
    (withRememberMeChecked true (withPasswordInputValue (js "x")
       (withEmailInputValue (js "  a@b.com ") freshPage)))
    eq_refl))).
Defined.

(** C3. When validation of the trimmed email and the password fails, the
    submit listener changes nothing: no timer is armed, no class is added,
    and the store (in particular a remembered email, whether or not the box
    is checked) is as before. *)
Theorem onSubmit_invalid_noop :
  (∀ pg : Page,
     validateForm (trim (emailInputValue pg)) (passwordInputValue pg) = false →
     onSubmit pg = pg
     ∧ localStorage (onSubmit pg) = localStorage pg
     ∧ getItem (js "rememberedEmail") (onSubmit pg) = getItem (js "rememberedEmail") pg
     ∧ timeouts (onSubmit pg) = timeouts pg
     ∧ containerClassList (onSubmit pg) = containerClassList pg)
  ∧ (∀ (email password : list N) (rememberMe : bool) (pg : Page),
       validateForm (trim email) password = false →
       localStorage (submitForm email password rememberMe pg) = localStorage pg
       ∧ timeouts (submitForm email password rememberMe pg) = timeouts pg
       ∧ containerClassList (submitForm email password rememberMe pg)
         = containerClassList pg).
Proof.
  assert (Hgen : ∀ pg : Page,
     validateForm (trim (emailInputValue pg)) (passwordInputValue pg) = false →
     onSubmit pg = pg).
  { intros pg Hv. unfold onSubmit. rewrite Hv. reflexivity. }
  split.
  - intros pg Hv. rewrite (Hgen pg Hv). repeat split.
  - intros email password rememberMe pg Hv. rewrite submitForm_onSubmit.
    rewrite Hgen by exact Hv. repeat split.
Qed.

(** C3 on a page with a remembered email, the box unchecked and an address
    without a dot: the submission is dropped and the remembered email stays. *)
Lemma onSubmit_invalid_noop_witness :
  validateForm (trim (emailInputValue staleSubmitPage))
    (passwordInputValue staleSubmitPage) = false
  ∧ rememberMeChecked staleSubmitPage = false
  ∧ getItem (js "rememberedEmail") (onSubmit staleSubmitPage) = Some (js "a@b.com")
  ∧ timeouts (onSubmit staleSubmitPage) = [].
Proof.
  split; [reflexivity|]. split; [reflexivity|].
  destruct (proj1 onSubmit_invalid_noop staleSubmitPage eq_refl)
    as (_ & _ & Hget & Htimers & _).
  split.
  - rewrite Hget. apply getItem_setItem.
  - rewrite Htimers. reflexivity.
Defined.

(** ** Quick login *)

(** C8. [quickLogin] puts the demo address and the demo password in the two
    fields and calls [navigateToDashboard] on every page, whatever the
    fields held (no validation decides it); it neither writes the store nor
    depends on it. *)
Theorem quickLogin_unconditional (pg : Page) :
  emailInputValue (quickLogin pg) = js "hackathon@aromi.ai"
  ∧ passwordInputValue (quickLogin pg) = js "agentic_ai_demo"
  ∧ quickLogin pg
    = navigateToDashboard
        (withPasswordInputValue (js "agentic_ai_demo")
           (withEmailInputValue (js "hackathon@aromi.ai") pg))
  ∧ timeouts (quickLogin pg)
    = timeouts pg ++ [(SetLocationHref (js "dashboard.html"), 200)]
  ∧ js "fade-out" ∈ containerClassList (quickLogin pg)
  ∧ localStorage (quickLogin pg) = localStorage pg
  ∧ (∀ f, quickLogin (withLocalStorage f pg) = withLocalStorage f (quickLogin pg))
  ∧ (∀ email password,
       timeouts (quickLogin (withPasswordInputValue password
                               (withEmailInputValue email pg)))
       = timeouts pg ++ [(SetLocationHref (js "dashboard.html"), 200)]).
Proof.
  repeat split.
  unfold quickLogin, navigateToDashboard. simpl. apply classListAdd_elem.
Qed.

(** ** Password visibility *)

(** C9. [togglePasswordVisibility] writes the type attribute of the password
    field and the class of the toggle icon; the value of the password field,
    the email field, the theme and its render, the store and everything else
    on the page stay as they were. *)
Theorem togglePasswordVisibility_frame (pg : Page) :
  togglePasswordVisibility pg
  = withPasswordIconClassName (passwordIconClassName (togglePasswordVisibility pg))
      (withPasswordInputType (passwordInputType (togglePasswordVisibility pg)) pg)
  ∧ passwordInputType (togglePasswordVisibility pg)
    = Some (if strict_eq (passwordInputType pg) (js "password")
            then js "text" else js "password")
  ∧ passwordIconClassName (togglePasswordVisibility pg)
    = (if strict_eq (passwordInputType pg) (js "password")
       then js "fas fa-eye-slash" else js "fas fa-eye")
  ∧ passwordInputValue (togglePasswordVisibility pg) = passwordInputValue pg
  ∧ emailInputValue (togglePasswordVisibility pg) = emailInputValue pg
  ∧ rememberMeChecked (togglePasswordVisibility pg) = rememberMeChecked pg
  ∧ dataTheme (togglePasswordVisibility pg) = dataTheme pg
  ∧ sunIconOpacity (togglePasswordVisibility pg) = sunIconOpacity pg
  ∧ moonIconOpacity (togglePasswordVisibility pg) = moonIconOpacity pg
  ∧ themeLabelText (togglePasswordVisibility pg) = themeLabelText pg
  ∧ localStorage (togglePasswordVisibility pg) = localStorage pg
  ∧ containerClassList (togglePasswordVisibility pg) = containerClassList pg
  ∧ timeouts (togglePasswordVisibility pg) = timeouts pg.
Proof.
  unfold togglePasswordVisibility.
  destruct (strict_eq (passwordInputType pg) (js "password")); repeat split.
Qed.

(** ** Theme *)

Lemma strict_eq_true (a : option (list N)) (b : list N) :
  strict_eq a b = true ↔ a = Some b.
Proof.
  destruct a as [s|]; simpl.
  - rewrite bool_decide_eq_true. split; congruence.
  - split; discriminate.
Qed.

Lemma strict_eq_false (a : option (list N)) (b : list N) :
  strict_eq a b = false ↔ a ≠ Some b.
Proof.
  rewrite <- strict_eq_true. destruct (strict_eq a b); split; congruence.
Qed.

Lemma updateThemeToggle_dark (pg : Page) :
  darkRender (updateThemeToggle (js "dark") pg).
Proof. repeat split. Qed.

Lemma updateThemeToggle_other (theme : list N) (pg : Page) :
  theme ≠ js "dark" → lightRender (updateThemeToggle theme pg).
Proof.
  intros Hne. unfold updateThemeToggle.
  rewrite bool_decide_eq_false_2 by assumption. repeat split.
Qed.

Lemma updateThemeToggle_frame (theme : list N) (pg : Page) :
  localStorage (updateThemeToggle theme pg) = localStorage pg
  ∧ dataTheme (updateThemeToggle theme pg) = dataTheme pg.
Proof. unfold updateThemeToggle. case_bool_decide; split; reflexivity. Qed.

Lemma dataTheme_initTheme (pg : Page) :
  dataTheme (initTheme pg) = Some (savedTheme pg).
Proof.
  unfold initTheme. cbv zeta.
  destruct (updateThemeToggle_frame (savedTheme pg)
              (withDataTheme (Some (savedTheme pg)) pg)) as [_ ->].
  reflexivity.
Qed.

Lemma localStorage_initTheme (pg : Page) :
  localStorage (initTheme pg) = localStorage pg.
Proof.
  unfold initTheme. cbv zeta.
  destruct (updateThemeToggle_frame (savedTheme pg)
              (withDataTheme (Some (savedTheme pg)) pg)) as [-> _].
  reflexivity.
Qed.

(** The rest of the [DOMContentLoaded] listener leaves the theme alone. *)
Lemma onDOMContentLoaded_theme (pg : Page) :
  localStorage (onDOMContentLoaded pg) = localStorage pg
  ∧ dataTheme (onDOMContentLoaded pg) = dataTheme (initTheme pg)
  ∧ sunIconOpacity (onDOMContentLoaded pg) = sunIconOpacity (initTheme pg)
  ∧ moonIconOpacity (onDOMContentLoaded pg) = moonIconOpacity (initTheme pg)
  ∧ themeLabelText (onDOMContentLoaded pg) = themeLabelText (initTheme pg).
Proof.
  unfold onDOMContentLoaded.
  destruct (getItem (js "rememberedEmail") (initTheme pg)) as [v|];
    [destruct (truthy v)|]; simpl; rewrite localStorage_initTheme; repeat split.
Qed.

Lemma render_onDOMContentLoaded (pg : Page) :
  (lightRender (onDOMContentLoaded pg) ↔ lightRender (initTheme pg))
  ∧ (darkRender (onDOMContentLoaded pg) ↔ darkRender (initTheme pg)).
Proof.
  destruct (onDOMContentLoaded_theme pg) as (_ & _ & Hs & Hm & Hl).
  unfold lightRender, darkRender. rewrite Hs, Hm, Hl. split; reflexivity.
Qed.

Lemma savedTheme_cases (pg : Page) :
  (getItem (js "theme") pg = None ∨ getItem (js "theme") pg = Some []
   → savedTheme pg = js "light")
  ∧ (∀ v, getItem (js "theme") pg = Some v → v ≠ [] → savedTheme pg = v).
Proof.
  unfold savedTheme. split.
  - intros [-> | ->]; reflexivity.
  - intros v -> Hv. destruct v; [congruence | reflexivity].
Qed.

Lemma savedTheme_localStorage (pg pg' : Page) :
  localStorage pg' = localStorage pg → savedTheme pg' = savedTheme pg.
Proof. unfold savedTheme, getItem. intros ->. reflexivity. Qed.

(** C4 (as stated, refuted).  With the theme "blue" in the store, the
    stored value is neither "light" nor "dark", and the listener puts
    "blue" on the document root, not "light". *)
Lemma initialize_invalid_theme_counterexample :
  getItem (js "theme") bluePage = Some (js "blue")
  ∧ js "blue" ≠ js "light" ∧ js "blue" ≠ js "dark"
  ∧ dataTheme (onDOMContentLoaded bluePage) = Some (js "blue")
  ∧ dataTheme (onDOMContentLoaded bluePage) ≠ Some (js "light").
Proof.
  assert (Hget : getItem (js "theme") bluePage = Some (js "blue"))
    by apply getItem_setItem.
  assert (Hroot : dataTheme (onDOMContentLoaded bluePage) = Some (js "blue")).
  { destruct (onDOMContentLoaded_theme bluePage) as (_ & -> & _).
    rewrite dataTheme_initTheme.
    rewrite (proj2 (savedTheme_cases bluePage) _ Hget); [reflexivity | discriminate]. }
  repeat split; try assumption.
  - intros H. vm_compute in H. discriminate.
  - intros H. vm_compute in H. discriminate.
  - rewrite Hroot. intros H. vm_compute in H. discriminate.
Qed.

(** C4 (amended).  The [DOMContentLoaded] listener reads the theme key and
    leaves the store as it is.  When the stored value is absent or the empty
    string, the document root gets "light" and the toggle shows light mode.
    Any other stored value, valid or not, is put on the root as it is; the
    toggle shows dark mode for exactly "dark" and light mode otherwise. *)
Theorem initialize_theme_fallback (pg : Page) :
  (getItem (js "theme") pg = None ∨ getItem (js "theme") pg = Some []
   → dataTheme (onDOMContentLoaded pg) = Some (js "light")
     ∧ lightRender (onDOMContentLoaded pg))
  ∧ (∀ v, getItem (js "theme") pg = Some v → v ≠ []
     → dataTheme (onDOMContentLoaded pg) = Some v
       ∧ (v = js "dark" → darkRender (onDOMContentLoaded pg))
       ∧ (v ≠ js "dark" → lightRender (onDOMContentLoaded pg)))
  ∧ localStorage (onDOMContentLoaded pg) = localStorage pg.
Proof.
  destruct (onDOMContentLoaded_theme pg) as (Hls & Hdt & _).
  destruct (render_onDOMContentLoaded pg) as (Hlight & Hdark).
  destruct (savedTheme_cases pg) as (Hdef & Hval).
  split; [|split; [|exact Hls]].
  - intros Habs. rewrite Hdt, dataTheme_initTheme, (Hdef Habs).
    split; [reflexivity|]. apply Hlight.
    unfold initTheme. rewrite (Hdef Habs).
    apply updateThemeToggle_other, light_ne_dark.
  - intros v Hv Hne. rewrite Hdt, dataTheme_initTheme, (Hval v Hv Hne).
    split; [reflexivity|]. split.
    + intros ->. apply Hdark. unfold initTheme. rewrite (Hval _ Hv Hne).
      apply updateThemeToggle_dark.
    + intros Hnd. apply Hlight. unfold initTheme. rewrite (Hval _ Hv Hne).
      by apply updateThemeToggle_other.
Qed.

(** C4 (amended) on a fresh store and on a store that holds "blue". *)
Lemma initialize_theme_fallback_witness :
  dataTheme (onDOMContentLoaded freshPage) = Some (js "light")
  ∧ dataTheme (onDOMContentLoaded bluePage) = Some (js "blue")
  ∧ themeLabelText (onDOMContentLoaded bluePage) = js "Light Mode".
Proof.
  split; [|split].
  - apply (proj1 (initialize_theme_fallback freshPage)). left. reflexivity.
  - apply (proj1 (proj2 (initialize_theme_fallback bluePage)) (js "blue")).
    + apply getItem_setItem.
    + discriminate.
  - apply (proj1 (proj2 (initialize_theme_fallback bluePage)) (js "blue")).
    + apply getItem_setItem.
    + discriminate.
    + intros H. vm_compute in H. discriminate.
Defined.

(** What [toggleTheme] writes: the new theme goes to the root attribute and
    to the store, the toggle is rendered for it, the rest of the page
    stays. *)
Lemma toggleTheme_light (pg : Page) :
  dataTheme pg = Some (js "light") →
  dataTheme (toggleTheme pg) = Some (js "dark")
  ∧ getItem (js "theme") (toggleTheme pg) = Some (js "dark")
  ∧ darkRender (toggleTheme pg).
Proof.
  intros Hcur. apply strict_eq_true in Hcur. unfold toggleTheme.
  rewrite Hcur. cbv zeta.
  split; [reflexivity|]. split; [|apply updateThemeToggle_dark].
  unfold getItem. simpl. apply lookup_insert_eq.
Qed.

Lemma toggleTheme_other (pg : Page) :
  dataTheme pg ≠ Some (js "light") →
  dataTheme (toggleTheme pg) = Some (js "light")
  ∧ getItem (js "theme") (toggleTheme pg) = Some (js "light")
  ∧ lightRender (toggleTheme pg).
Proof.
  intros Hcur. apply strict_eq_false in Hcur. unfold toggleTheme.
  rewrite Hcur. cbv zeta.
  split; [reflexivity|].
  split; [|apply updateThemeToggle_other, light_ne_dark].
  unfold getItem. simpl. apply lookup_insert_eq.
Qed.

Lemma toggleTheme_frame (pg : Page) :
  passwordInputType (toggleTheme pg) = passwordInputType pg
  ∧ passwordInputValue (toggleTheme pg) = passwordInputValue pg
  ∧ passwordIconClassName (toggleTheme pg) = passwordIconClassName pg
  ∧ emailInputValue (toggleTheme pg) = emailInputValue pg
  ∧ rememberMeChecked (toggleTheme pg) = rememberMeChecked pg
  ∧ containerClassList (toggleTheme pg) = containerClassList pg
  ∧ timeouts (toggleTheme pg) = timeouts pg
  ∧ (∀ k, k ≠ js "theme" → getItem k (toggleTheme pg) = getItem k pg).
Proof.
  unfold toggleTheme.
  destruct (strict_eq (dataTheme pg) (js "light")); cbv zeta;
    repeat split; intros k Hk; unfold getItem; simpl;
    by apply lookup_insert_ne.
Qed.

Lemma decide_light (cur : option (list N)) :
  cur = Some (js "light") ∨ cur ≠ Some (js "light").
Proof. destruct (decide (cur = Some (js "light"))); auto. Qed.

(** C10. [toggleTheme] sends every root attribute other than exactly "light"
    (an absent one, "dark", or any unrecognised value) to "light", in the
    attribute and in the store, and sends "light" to "dark"; so two toggles
    give the root attribute back exactly when it was "light" or "dark". *)
Theorem toggleTheme_only_light_goes_dark (pg : Page) :
  (dataTheme pg ≠ Some (js "light")
   → dataTheme (toggleTheme pg) = Some (js "light")
     ∧ getItem (js "theme") (toggleTheme pg) = Some (js "light"))
  ∧ (dataTheme pg = Some (js "light")
     → dataTheme (toggleTheme pg) = Some (js "dark")
       ∧ getItem (js "theme") (toggleTheme pg) = Some (js "dark"))
  ∧ (dataTheme (toggleTheme (toggleTheme pg)) = dataTheme pg
     ↔ dataTheme pg = Some (js "light") ∨ dataTheme pg = Some (js "dark")).
Proof.
  split; [|split].
  - intros H. destruct (toggleTheme_other pg H) as (? & ? & _). auto.
  - intros H. destruct (toggleTheme_light pg H) as (? & ? & _). auto.
  - destruct (decide_light (dataTheme pg)) as [Hl | Hnl].
    + destruct (toggleTheme_light pg Hl) as (Hd & _).
      assert (Hnl' : dataTheme (toggleTheme pg) ≠ Some (js "light")).
      { rewrite Hd. intros H. apply light_ne_dark. congruence. }
      destruct (toggleTheme_other _ Hnl') as (-> & _).
      rewrite Hl. split; auto.
    + destruct (toggleTheme_other pg Hnl) as (Hd & _).
      destruct (toggleTheme_light _ Hd) as (-> & _).
      split; [intros <-; auto|]. intros [H | H]; congruence.
Qed.

(** C10 on a page without the attribute and on a page that shows "blue". *)
Lemma toggleTheme_only_light_goes_dark_witness :
  dataTheme freshPage ≠ Some (js "light")
  ∧ dataTheme (toggleTheme freshPage) = Some (js "light")
  ∧ dataTheme (initTheme bluePage) ≠ Some (js "light")
  ∧ getItem (js "theme") (toggleTheme (initTheme bluePage)) = Some (js "light").
Proof.
  assert (H1 : dataTheme freshPage ≠ Some (js "light")) by discriminate.
  assert (H2 : dataTheme (initTheme bluePage) ≠ Some (js "light")).
  { intros H. vm_compute in H. discriminate. }
  split; [exact H1|]. split; [|split; [exact H2|]].
  - exact (proj1 (proj1 (toggleTheme_only_light_goes_dark freshPage) H1)).
  - exact (proj2 (proj1 (toggleTheme_only_light_goes_dark (initTheme bluePage)) H2)).
Defined.

(** ** The theme across events *)

(** Events other than page load and the theme toggle touch neither the root
    attribute nor the theme key. *)
Lemma handle_theme_frame (ev : Event) (pg : Page) :
  ev ≠ DOMContentLoaded → ev ≠ ThemeToggleClick →
  dataTheme (handle ev pg) = dataTheme pg
  ∧ getItem (js "theme") (handle ev pg) = getItem (js "theme") pg.
Proof.
  intros Hload Htoggle. destruct ev; try congruence; simpl handle.
  - unfold togglePasswordVisibility.
    destruct (strict_eq (passwordInputType pg) (js "password")); split; reflexivity.
  - split; reflexivity.
  - unfold onSubmit.
    destruct (validateForm _ _); [|split; reflexivity].
    destruct (rememberMeChecked pg); (split; [reflexivity|]).
    + rewrite getItem_navigateToDashboard.
      apply getItem_setItem_ne. intros H. symmetry in H.
      exact (theme_key_ne_rememberedEmail H).
    + rewrite getItem_navigateToDashboard.
      apply getItem_removeItem_ne. intros H. symmetry in H.
      exact (theme_key_ne_rememberedEmail H).
  - split; reflexivity.
  - split; reflexivity.
  - split; reflexivity.
Qed.

Lemma savedTheme_getItem (pg pg' : Page) :
  getItem (js "theme") pg' = getItem (js "theme") pg →
  savedTheme pg' = savedTheme pg.
Proof. unfold savedTheme. intros ->. reflexivity. Qed.

Lemma themeWritten_toggleTheme (pg : Page) : themeWritten (toggleTheme pg).
Proof.
  destruct (decide_light (dataTheme pg)) as [Hl | Hnl].
  - destruct (toggleTheme_light pg Hl) as (? & ? & _).
    exists (js "dark"). auto.
  - destruct (toggleTheme_other pg Hnl) as (? & ? & _).
    exists (js "light"). auto.
Qed.

Lemma themeWritten_agrees (pg : Page) : themeWritten pg → themeAgrees pg.
Proof.
  intros (t & Ht & Hget & Hroot). unfold themeAgrees, savedTheme.
  rewrite Hroot, Hget. destruct Ht as [-> | ->]; reflexivity.
Qed.

Lemma themeAgrees_onDOMContentLoaded (pg : Page) :
  themeAgrees (onDOMContentLoaded pg).
Proof.
  destruct (onDOMContentLoaded_theme pg) as (Hls & Hdt & _).
  unfold themeAgrees. rewrite Hdt, dataTheme_initTheme.
  f_equal. symmetry. by apply savedTheme_localStorage.
Qed.

Lemma themeAgrees_handle (ev : Event) (pg : Page) :
  themeAgrees pg → themeAgrees (handle ev pg).
Proof.
  intros Hagree.
  destruct (decide (ev = DOMContentLoaded)) as [-> | Hload];
    [apply themeAgrees_onDOMContentLoaded|].
  destruct (decide (ev = ThemeToggleClick)) as [-> | Htoggle];
    [apply themeWritten_agrees, themeWritten_toggleTheme|].
  destruct (handle_theme_frame ev pg Hload Htoggle) as (Hdt & Hget).
  unfold themeAgrees. rewrite Hdt, (savedTheme_getItem _ _ Hget).
  exact Hagree.
Qed.

Lemma themeWritten_handle (ev : Event) (pg : Page) :
  themeWritten pg → themeWritten (handle ev pg).
Proof.
  intros Hw.
  destruct (decide (ev = ThemeToggleClick)) as [-> | Htoggle];
    [apply themeWritten_toggleTheme|].
  destruct Hw as (t & Ht & Hget & Hroot).
  destruct (decide (ev = DOMContentLoaded)) as [-> | Hload].
  - destruct (onDOMContentLoaded_theme pg) as (Hls & Hdt & _).
    exists t. split; [exact Ht|]. split.
    + unfold getItem in *. simpl handle. rewrite Hls. exact Hget.
    + simpl handle. rewrite Hdt, dataTheme_initTheme. f_equal.
      unfold savedTheme. rewrite Hget. destruct Ht as [-> | ->]; reflexivity.
  - destruct (handle_theme_frame ev pg Hload Htoggle) as (Hdt & Hget').
    exists t. rewrite Hdt, Hget'. auto.
Qed.

Lemma themeAgrees_run (evs : list Event) (pg : Page) :
  themeAgrees pg → themeAgrees (run evs pg).
Proof.
  revert pg. induction evs as [|ev evs IH]; intros pg H; simpl; [exact H|].
  apply IH, themeAgrees_handle, H.
Qed.

Lemma themeWritten_run (evs : list Event) (pg : Page) :
  themeWritten pg → themeWritten (run evs pg).
Proof.
  revert pg. induction evs as [|ev evs IH]; intros pg H; simpl; [exact H|].
  apply IH, themeWritten_handle, H.
Qed.

(** C5. Once the page has been initialised or the theme toggled, in every
    state reached by any further events the persisted theme and the
    [data-theme] attribute of the document root agree: the root shows the
    stored value, and shows "light", the default, while nothing (or the
    empty string) is stored.  After a toggle the stored value and the
    attribute are the same string. *)
Theorem theme_store_and_root_agree (pg : Page) (evs : list Event) :
  themeAgrees (run evs (onDOMContentLoaded pg))
  ∧ themeAgrees (run evs (toggleTheme pg))
  ∧ (∀ v, getItem (js "theme") (run evs (onDOMContentLoaded pg)) = Some v
          → v ≠ []
          → dataTheme (run evs (onDOMContentLoaded pg)) = Some v)
  ∧ (getItem (js "theme") (run evs (onDOMContentLoaded pg)) = None
     → dataTheme (run evs (onDOMContentLoaded pg)) = Some (js "light"))
  ∧ getItem (js "theme") (run evs (toggleTheme pg))
    = dataTheme (run evs (toggleTheme pg)).
Proof.
  assert (Hinit : themeAgrees (run evs (onDOMContentLoaded pg)))
    by apply themeAgrees_run, themeAgrees_onDOMContentLoaded.
  assert (Hw : themeWritten (run evs (toggleTheme pg)))
    by apply themeWritten_run, themeWritten_toggleTheme.
  split; [exact Hinit|]. split; [apply themeWritten_agrees, Hw|].
  destruct (savedTheme_cases (run evs (onDOMContentLoaded pg))) as (Hdef & Hval).
  unfold themeAgrees in Hinit. split; [|split].
  - intros v Hv Hne. rewrite Hinit. f_equal. by apply Hval.
  - intros Hv. rewrite Hinit. f_equal. apply Hdef. by left.
  - destruct Hw as (t & _ & -> & ->). reflexivity.
Qed.

(** ** Toggling twice *)

Lemma themeCoherent_toggleTheme (pg : Page) : themeCoherent (toggleTheme pg).
Proof.
  destruct (decide_light (dataTheme pg)) as [Hl | Hnl].
  - destruct (toggleTheme_light pg Hl) as (Hroot & Hget & Hrender).
    right. unfold savedTheme. rewrite Hget. auto.
  - destruct (toggleTheme_other pg Hnl) as (Hroot & Hget & Hrender).
    left. unfold savedTheme. rewrite Hget. auto.
Qed.

(** C6 (as stated, refuted).  Page load with "blue" in the store leaves
    "blue" on the root and in the store and renders light mode; two toggles
    later the root and the store hold "dark" and the label reads
    "Dark Mode". *)
Lemma toggleTheme_twice_counterexample :
  dataTheme (onDOMContentLoaded bluePage) = Some (js "blue")
  ∧ getItem (js "theme") (onDOMContentLoaded bluePage) = Some (js "blue")
  ∧ themeLabelText (onDOMContentLoaded bluePage) = js "Light Mode"
  ∧ dataTheme (toggleTheme (toggleTheme (onDOMContentLoaded bluePage)))
    = Some (js "dark")
  ∧ getItem (js "theme") (toggleTheme (toggleTheme (onDOMContentLoaded bluePage)))
    = Some (js "dark")
  ∧ themeLabelText (toggleTheme (toggleTheme (onDOMContentLoaded bluePage)))
    = js "Dark Mode"
  ∧ dataTheme (toggleTheme (toggleTheme (onDOMContentLoaded bluePage)))
    ≠ dataTheme (onDOMContentLoaded bluePage).
Proof.
  assert (Hroot : dataTheme (onDOMContentLoaded bluePage) = Some (js "blue"))
    by (vm_compute; reflexivity).
  assert (Hnl : dataTheme (onDOMContentLoaded bluePage) ≠ Some (js "light")).
  { rewrite Hroot. intros H. vm_compute in H. discriminate. }
  destruct (toggleTheme_other _ Hnl) as (H1 & _).
  destruct (toggleTheme_light _ H1) as (H2 & H2get & (_ & _ & H2label)).
  repeat split; try assumption.
  rewrite H2, Hroot. intros H. vm_compute in H. discriminate.
Qed.

(** C6 (amended).  On a page whose root attribute is "light" or "dark" and
    whose persisted preference and toggle render agree with it, two calls
    of [toggleTheme] give back the persisted preference, the root
    attribute, both icon opacities and the label; a stored non-empty value
    is stored again as the same string. *)
Theorem toggleTheme_twice_restores (pg : Page) :
  themeCoherent pg →
  savedTheme (toggleTheme (toggleTheme pg)) = savedTheme pg
  ∧ dataTheme (toggleTheme (toggleTheme pg)) = dataTheme pg
  ∧ sunIconOpacity (toggleTheme (toggleTheme pg)) = sunIconOpacity pg
  ∧ moonIconOpacity (toggleTheme (toggleTheme pg)) = moonIconOpacity pg
  ∧ themeLabelText (toggleTheme (toggleTheme pg)) = themeLabelText pg
  ∧ (∀ v, getItem (js "theme") pg = Some v → v ≠ []
          → getItem (js "theme") (toggleTheme (toggleTheme pg)) = Some v).
Proof.
  intros [(Hroot & Hsaved & (Hs & Hm & Hl)) | (Hroot & Hsaved & (Hs & Hm & Hl))].
  - destruct (toggleTheme_light pg Hroot) as (H1 & _).
    assert (H1' : dataTheme (toggleTheme pg) ≠ Some (js "light")).
    { rewrite H1. intros H. apply light_ne_dark. congruence. }
    destruct (toggleTheme_other _ H1') as (H2 & H2get & (Hs2 & Hm2 & Hl2)).
    rewrite Hsaved, Hroot, Hs, Hm, Hl, H2, Hs2, Hm2, Hl2, H2get.
    unfold savedTheme at 1. rewrite H2get.
    repeat split.
    intros v Hv Hne. rewrite <- Hsaved.
    by rewrite (proj2 (savedTheme_cases pg) v Hv Hne).
  - assert (H0 : dataTheme pg ≠ Some (js "light")).
    { rewrite Hroot. intros H. apply light_ne_dark. congruence. }
    destruct (toggleTheme_other pg H0) as (H1 & _).
    destruct (toggleTheme_light _ H1) as (H2 & H2get & (Hs2 & Hm2 & Hl2)).
    rewrite Hsaved, Hroot, Hs, Hm, Hl, H2, Hs2, Hm2, Hl2, H2get.
    unfold savedTheme at 1. rewrite H2get.
    repeat split.
    intros v Hv Hne. rewrite <- Hsaved.
    by rewrite (proj2 (savedTheme_cases pg) v Hv Hne).
Qed.

(** C6 (amended) on a freshly loaded first visit: light before, light after,
    with the default now written to the store. *)
Lemma toggleTheme_twice_restores_witness :
  themeCoherent (onDOMContentLoaded freshPage)
  ∧ dataTheme (toggleTheme (toggleTheme (onDOMContentLoaded freshPage)))
    = dataTheme (onDOMContentLoaded freshPage)
  ∧ themeLabelText (toggleTheme (toggleTheme (onDOMContentLoaded freshPage)))
    = themeLabelText (onDOMContentLoaded freshPage).
Proof.
  assert (Hc : themeCoherent (onDOMContentLoaded freshPage)).
  { left. repeat split. }
  split; [exact Hc|].
  destruct (toggleTheme_twice_restores (onDOMContentLoaded freshPage) Hc)
    as (_ & Hroot & _ & _ & Hlabel & _).
  split; [exact Hroot | exact Hlabel].
Defined.

(** ** Remembered email *)

Lemma rememberedEmailValid_getItem (pg pg' : Page) :
  getItem (js "rememberedEmail") pg' = getItem (js "rememberedEmail") pg →
  rememberedEmailValid pg' = rememberedEmailValid pg.
Proof. unfold rememberedEmailValid. intros ->. reflexivity. Qed.

(** A submission writes the key only with an address the pattern accepts. *)
Lemma rememberedEmailValid_onSubmit (pg : Page) :
  rememberedEmailValid pg = true → rememberedEmailValid (onSubmit pg) = true.
Proof.
  intros Hok. unfold onSubmit.
  destruct (validateForm _ _) eqn:Hv; [|exact Hok].
  apply validateForm_true in Hv as (_ & _ & Hvalid).
  unfold rememberedEmailValid. rewrite getItem_navigateToDashboard.
  destruct (rememberMeChecked pg).
  - rewrite getItem_setItem. exact Hvalid.
  - rewrite getItem_removeItem. reflexivity.
Qed.

Lemma rememberedEmailValid_handle (ev : Event) (pg : Page) :
  rememberedEmailValid pg = true → rememberedEmailValid (handle ev pg) = true.
Proof.
  intros Hok. destruct ev; simpl handle.
  - rewrite (rememberedEmailValid_getItem pg); [exact Hok|].
    unfold getItem. by rewrite (proj1 (onDOMContentLoaded_theme pg)).
  - rewrite (rememberedEmailValid_getItem pg); [exact Hok|].
    apply toggleTheme_frame. intros H. symmetry in H.
    exact (theme_key_ne_rememberedEmail H).
  - rewrite (rememberedEmailValid_getItem pg); [exact Hok|].
    unfold togglePasswordVisibility.
    destruct (strict_eq (passwordInputType pg) (js "password")); reflexivity.
  - exact Hok.
  - by apply rememberedEmailValid_onSubmit.
  - exact Hok.
  - exact Hok.
  - exact Hok.
Qed.

Lemma rememberedEmailValid_empty (pg : Page) :
  localStorage pg = ∅ → rememberedEmailValid pg = true.
Proof.
  intros Hempty. unfold rememberedEmailValid, getItem.
  rewrite Hempty, lookup_empty. reflexivity.
Qed.

(** C7. Starting from a page whose store holds no remembered email or a
    valid one (a first visit, where nothing is stored, is such a page),
    every state reached by any sequence of events (page load, theme toggle,
    password toggle, quick login, form submission, and the user editing the
    form in between) holds no remembered email or one that the validation
    pattern accepts. *)
Theorem rememberedEmail_stays_valid (pg : Page) (evs : list Event) :
  rememberedEmailValid pg = true →
  rememberedEmailValid (run evs pg) = true
  ∧ (∀ v, getItem (js "rememberedEmail") (run evs pg) = Some v
          → isValidEmail v = true ∧ emailShape v).
Proof.
  intros Hok.
  assert (Hrun : rememberedEmailValid (run evs pg) = true).
  { revert pg Hok. induction evs as [|ev evs IH]; intros pg Hok; simpl.
    - exact Hok.
    - apply IH, rememberedEmailValid_handle, Hok. }
  split; [exact Hrun|].
  intros v Hv. unfold rememberedEmailValid in Hrun. rewrite Hv in Hrun.
  split; [exact Hrun|]. by apply isValidEmail_emailShape.
Qed.

(** C7 on a first visit: load, quick login, then a remembered submission of
    a padded address. *)
Lemma rememberedEmail_stays_valid_witness :
  rememberedEmailValid freshPage = true
  ∧ rememberedEmailValid
      (run [DOMContentLoaded; QuickLoginClick; EmailTyped (js " a@b.com ");
            PasswordTyped (js "x"); RememberMeSet true; LoginFormSubmit]
         freshPage) = true.
Proof.
  split; [reflexivity|].
  exact (proj1 (rememberedEmail_stays_valid freshPage
           [DOMContentLoaded; QuickLoginClick; EmailTyped (js " a@b.com ");
            PasswordTyped (js "x"); RememberMeSet true; LoginFormSubmit]
           eq_refl)).
Defined.

(** * Further properties of the script *)

(** Two pages with the same twelve components are the same page. *)
Lemma page_ext (pg pg' : Page) :
  localStorage pg = localStorage pg' →
  dataTheme pg = dataTheme pg' →
  sunIconOpacity pg = sunIconOpacity pg' →
  moonIconOpacity pg = moonIconOpacity pg' →
  themeLabelText pg = themeLabelText pg' →
  passwordInputType pg = passwordInputType pg' →
  passwordInputValue pg = passwordInputValue pg' →
  passwordIconClassName pg = passwordIconClassName pg' →
  emailInputValue pg = emailInputValue pg' →
  rememberMeChecked pg = rememberMeChecked pg' →
  containerClassList pg = containerClassList pg' →
  timeouts pg = timeouts pg' →
  pg = pg'.
Proof.
  destruct pg, pg'. simpl. intros. subst. reflexivity.
Qed.

Ltac page_fields :=
  cbn [localStorage dataTheme sunIconOpacity moonIconOpacity themeLabelText
       passwordInputType passwordInputValue passwordIconClassName
       emailInputValue rememberMeChecked containerClassList timeouts
       withLocalStorage withDataTheme withThemeToggle withPasswordInputType
       withPasswordInputValue withPasswordIconClassName withEmailInputValue
       withRememberMeChecked withContainerClassList withTimeouts
       setItem removeItem setTimeout getItem].

Tactic Notation "page_fields" "in" hyp(H) :=
  cbn [localStorage dataTheme sunIconOpacity moonIconOpacity themeLabelText
       passwordInputType passwordInputValue passwordIconClassName
       emailInputValue rememberMeChecked containerClassList timeouts
       withLocalStorage withDataTheme withThemeToggle withPasswordInputType
       withPasswordInputValue withPasswordIconClassName withEmailInputValue
       withRememberMeChecked withContainerClassList withTimeouts
       setItem removeItem setTimeout getItem] in H.

(** ** Password visibility, continued *)

Lemma togglePasswordVisibility_password (pg : Page) :
  passwordInputType pg = Some (js "password") →
  togglePasswordVisibility pg
  = withPasswordIconClassName (js "fas fa-eye-slash")
      (withPasswordInputType (Some (js "text")) pg).
Proof.
  intros H. apply strict_eq_true in H. unfold togglePasswordVisibility.
  rewrite H. reflexivity.
Qed.

Lemma togglePasswordVisibility_other (pg : Page) :
  passwordInputType pg ≠ Some (js "password") →
  togglePasswordVisibility pg
  = withPasswordIconClassName (js "fas fa-eye")
      (withPasswordInputType (Some (js "password")) pg).
Proof.
  intros H. apply strict_eq_false in H. unfold togglePasswordVisibility.
  rewrite H. reflexivity.
Qed.

Lemma decide_password (cur : option (list N)) :
  cur = Some (js "password") ∨ cur ≠ Some (js "password").
Proof. destruct (decide (cur = Some (js "password"))); auto. Qed.

Lemma text_ne_password : Some (js "text") ≠ Some (js "password").
Proof. intros H. vm_compute in H. discriminate. Qed.

Lemma passwordToggleSettled_after (pg : Page) :
  passwordToggleSettled (togglePasswordVisibility pg).
Proof.
  destruct (decide_password (passwordInputType pg)) as [Hp | Hnp].
  - rewrite (togglePasswordVisibility_password pg Hp). right. split; reflexivity.
  - rewrite (togglePasswordVisibility_other pg Hnp). left. split; reflexivity.
Qed.

(** X1. Whatever the type attribute of the password field was, after
    [togglePasswordVisibility] the field is either masked with the open-eye
    icon or plain text with the struck-eye icon: it becomes plain text only
    from exactly "password", and masked from anything else (no attribute,
    "text", or another value). *)
Theorem togglePasswordVisibility_settles (pg : Page) :
  passwordToggleSettled (togglePasswordVisibility pg)
  ∧ (passwordInputType (togglePasswordVisibility pg) = Some (js "text")
     ↔ passwordInputType pg = Some (js "password"))
  ∧ (passwordInputType (togglePasswordVisibility pg) = Some (js "password")
     ↔ passwordInputType pg ≠ Some (js "password")).
Proof.
  split; [apply passwordToggleSettled_after|].
  destruct (decide_password (passwordInputType pg)) as [Hp | Hnp].
  - rewrite (togglePasswordVisibility_password pg Hp). page_fields. split.
    + split; [intros _; exact Hp | reflexivity].
    + split; [|contradiction]. intros H. destruct (text_ne_password H).
  - rewrite (togglePasswordVisibility_other pg Hnp). page_fields. split.
    + split; [|contradiction].
      intros H. symmetry in H. destruct (text_ne_password H).
    + split; [intros _; exact Hnp | reflexivity].
Qed.

(** X2. Two calls of [togglePasswordVisibility] give back the very same page
    exactly on the pages where the field is masked with the open-eye icon
    or plain text with the struck-eye icon; every page is such a page after
    one call, so a third call always undoes the second. *)
Theorem togglePasswordVisibility_twice_iff (pg : Page) :
  (togglePasswordVisibility (togglePasswordVisibility pg) = pg
   ↔ passwordToggleSettled pg)
  ∧ togglePasswordVisibility
      (togglePasswordVisibility (togglePasswordVisibility pg))
    = togglePasswordVisibility pg.
Proof.
  assert (Hiff : ∀ pg, togglePasswordVisibility (togglePasswordVisibility pg) = pg
                       ↔ passwordToggleSettled pg).
  { clear pg. intros pg. split.
    - intros <-. apply passwordToggleSettled_after.
    - intros [(Ht & Hi) | (Ht & Hi)].
      + rewrite (togglePasswordVisibility_password pg Ht).
        rewrite togglePasswordVisibility_other by exact text_ne_password.
        apply page_ext; page_fields; congruence.
      + assert (Hnp : passwordInputType pg ≠ Some (js "password")).
        { rewrite Ht. exact text_ne_password. }
        rewrite (togglePasswordVisibility_other pg Hnp).
        rewrite togglePasswordVisibility_password by reflexivity.
        apply page_ext; page_fields; congruence. }
  split; [apply Hiff|]. apply Hiff, passwordToggleSettled_after.
Qed.

(** ** Theme, continued *)

Lemma toggleTheme_light_eq (pg : Page) :
  dataTheme pg = Some (js "light") →
  toggleTheme pg
  = withThemeToggle (js "0.5") (js "1") (js "Dark Mode")
      (setItem (js "theme") (js "dark") (withDataTheme (Some (js "dark")) pg)).
Proof.
  intros H. apply strict_eq_true in H. unfold toggleTheme.
  rewrite H. reflexivity.
Qed.

Lemma toggleTheme_other_eq (pg : Page) :
  dataTheme pg ≠ Some (js "light") →
  toggleTheme pg
  = withThemeToggle (js "1") (js "0.5") (js "Light Mode")
      (setItem (js "theme") (js "light") (withDataTheme (Some (js "light")) pg)).
Proof.
  intros H. apply strict_eq_false in H. unfold toggleTheme.
  rewrite H. reflexivity.
Qed.

Lemma dark_ne_light : Some (js "dark") ≠ Some (js "light").
Proof. intros H. vm_compute in H. discriminate. Qed.

Lemma renderMatchesRoot_toggleTheme (pg : Page) :
  renderMatchesRoot (toggleTheme pg).
Proof.
  destruct (decide_light (dataTheme pg)) as [Hl | Hnl].
  - destruct (toggleTheme_light pg Hl) as (Hroot & _ & Hrender).
    left. auto.
  - destruct (toggleTheme_other pg Hnl) as (Hroot & _ & Hrender).
    right. split; [|exact Hrender]. rewrite Hroot. intros H.
    symmetry in H. exact (dark_ne_light H).
Qed.

(** X3. Two calls of [toggleTheme] give back the very same page (store,
    root attribute, render and all the rest) exactly on the pages where the
    store holds "light" or "dark" under the theme key, the root attribute is
    that same string, and the toggle shows it.  Every page is such a page
    after one call, so a third call always undoes the second. *)
Theorem toggleTheme_twice_iff (pg : Page) :
  (toggleTheme (toggleTheme pg) = pg ↔ themeWritten pg ∧ renderMatchesRoot pg)
  ∧ toggleTheme (toggleTheme (toggleTheme pg)) = toggleTheme pg.
Proof.
  assert (Hiff : ∀ pg, toggleTheme (toggleTheme pg) = pg
                       ↔ themeWritten pg ∧ renderMatchesRoot pg).
  { clear pg. intros pg. split.
    - intros <-. split; [apply themeWritten_toggleTheme
                        | apply renderMatchesRoot_toggleTheme].
    - intros [(t & Ht & Hget & Hroot) Hrender].
      unfold getItem in Hget. destruct Ht as [-> | ->].
      + destruct Hrender as [(Hd & _) | (_ & (Hs & Hm & Hl))].
        { rewrite Hroot in Hd. symmetry in Hd. destruct (dark_ne_light Hd). }
        rewrite (toggleTheme_light_eq pg Hroot).
        rewrite toggleTheme_other_eq by exact dark_ne_light.
        apply page_ext; page_fields; try congruence.
        rewrite insert_insert_eq. by apply insert_id.
      + destruct Hrender as [(_ & (Hs & Hm & Hl)) | (Hd & _)];
          [|contradiction].
        assert (Hnl : dataTheme pg ≠ Some (js "light")).
        { rewrite Hroot. exact dark_ne_light. }
        rewrite (toggleTheme_other_eq pg Hnl).
        rewrite toggleTheme_light_eq by reflexivity.
        apply page_ext; page_fields; try congruence.
        rewrite insert_insert_eq. by apply insert_id. }
  split; [apply Hiff|].
  apply Hiff. split; [apply themeWritten_toggleTheme
                     | apply renderMatchesRoot_toggleTheme].
Qed.

(** ** Page load, continued *)

(** Every component of the page after the [DOMContentLoaded] listener, in
    terms of the page before it. *)
Lemma onDOMContentLoaded_fields (pg : Page) :
  localStorage (onDOMContentLoaded pg) = localStorage pg
  ∧ dataTheme (onDOMContentLoaded pg) = Some (savedTheme pg)
  ∧ sunIconOpacity (onDOMContentLoaded pg)
    = (if bool_decide (savedTheme pg = js "dark") then js "0.5" else js "1")
  ∧ moonIconOpacity (onDOMContentLoaded pg)
    = (if bool_decide (savedTheme pg = js "dark") then js "1" else js "0.5")
  ∧ themeLabelText (onDOMContentLoaded pg)
    = (if bool_decide (savedTheme pg = js "dark")
       then js "Dark Mode" else js "Light Mode")
  ∧ passwordInputType (onDOMContentLoaded pg) = passwordInputType pg
  ∧ passwordInputValue (onDOMContentLoaded pg) = passwordInputValue pg
  ∧ passwordIconClassName (onDOMContentLoaded pg) = passwordIconClassName pg
  ∧ emailInputValue (onDOMContentLoaded pg)
    = (if truthy (default [] (getItem (js "rememberedEmail") pg))
       then default [] (getItem (js "rememberedEmail") pg)
       else emailInputValue pg)
  ∧ rememberMeChecked (onDOMContentLoaded pg)
    = (if truthy (default [] (getItem (js "rememberedEmail") pg))
       then true else rememberMeChecked pg)
  ∧ containerClassList (onDOMContentLoaded pg) = containerClassList pg
  ∧ timeouts (onDOMContentLoaded pg) = timeouts pg.
Proof.
  unfold onDOMContentLoaded. cbv zeta.
  replace (getItem (js "rememberedEmail") (initTheme pg))
    with (getItem (js "rememberedEmail") pg)
    by (unfold getItem; by rewrite localStorage_initTheme).
  unfold initTheme, updateThemeToggle. cbv zeta.
  destruct (getItem (js "rememberedEmail") pg) as [[|c v]|];
    cbn [default truthy];
    destruct (bool_decide (savedTheme pg = js "dark")); page_fields;
    repeat split.
Qed.

Lemma savedTheme_onDOMContentLoaded (pg : Page) :
  savedTheme (onDOMContentLoaded pg) = savedTheme pg.
Proof.
  apply savedTheme_localStorage. apply (onDOMContentLoaded_fields pg).
Qed.

Lemma getItem_onDOMContentLoaded (k : list N) (pg : Page) :
  getItem k (onDOMContentLoaded pg) = getItem k pg.
Proof.
  unfold getItem. by rewrite (proj1 (onDOMContentLoaded_fields pg)).
Qed.

(** X4. Running the [DOMContentLoaded] listener a second time changes
    nothing: what it writes (root attribute, toggle render, email field,
    checkbox) depends on the store alone, and it does not write the store. *)
Theorem onDOMContentLoaded_idempotent (pg : Page) :
  onDOMContentLoaded (onDOMContentLoaded pg) = onDOMContentLoaded pg.
Proof.
  destruct (onDOMContentLoaded_fields (onDOMContentLoaded pg))
    as (H1 & H2 & H3 & H4 & H5 & H6 & H7 & H8 & H9 & H10 & H11 & H12).
  destruct (onDOMContentLoaded_fields pg)
    as (G1 & G2 & G3 & G4 & G5 & G6 & G7 & G8 & G9 & G10 & G11 & G12).
  rewrite savedTheme_onDOMContentLoaded in H2, H3, H4, H5.
  rewrite getItem_onDOMContentLoaded in H9, H10.
  apply page_ext; try congruence.
  - rewrite H9, G9.
    destruct (truthy (default [] (getItem (js "rememberedEmail") pg)));
      reflexivity.
  - rewrite H10, G10.
    destruct (truthy (default [] (getItem (js "rememberedEmail") pg)));
      reflexivity.
Qed.

(** X5. On page load a remembered email that is present and non-empty is
    put in the email field and the box is checked; when the key is absent or
    holds the empty string, field and box stay as the markup has them.
    Either way the listener writes nothing to the store, arms no timer, adds
    no class and leaves the password field alone. *)
Theorem onDOMContentLoaded_prefill (pg : Page) :
  (∀ v, getItem (js "rememberedEmail") pg = Some v → v ≠ []
        → emailInputValue (onDOMContentLoaded pg) = v
          ∧ rememberMeChecked (onDOMContentLoaded pg) = true)
  ∧ (getItem (js "rememberedEmail") pg = None
     ∨ getItem (js "rememberedEmail") pg = Some []
     → emailInputValue (onDOMContentLoaded pg) = emailInputValue pg
       ∧ rememberMeChecked (onDOMContentLoaded pg) = rememberMeChecked pg)
  ∧ localStorage (onDOMContentLoaded pg) = localStorage pg
  ∧ timeouts (onDOMContentLoaded pg) = timeouts pg
  ∧ containerClassList (onDOMContentLoaded pg) = containerClassList pg
  ∧ passwordInputValue (onDOMContentLoaded pg) = passwordInputValue pg
  ∧ passwordInputType (onDOMContentLoaded pg) = passwordInputType pg.
Proof.
  destruct (onDOMContentLoaded_fields pg)
    as (G1 & G2 & G3 & G4 & G5 & G6 & G7 & G8 & G9 & G10 & G11 & G12).
  split; [|split].
  - intros v Hv Hne. rewrite G9, G10, Hv.
    destruct v; [congruence|]. split; reflexivity.
  - intros [Hv | Hv]; rewrite G9, G10, Hv; split; reflexivity.
  - auto.
Qed.

(** X5 on a page with a remembered address and on a first visit. *)
Lemma onDOMContentLoaded_prefill_witness :
  emailInputValue (onDOMContentLoaded staleSubmitPage) = js "a@b.com"
  ∧ rememberMeChecked (onDOMContentLoaded freshPage) = false.
Proof.
  split.
  - apply (proj1 (onDOMContentLoaded_prefill staleSubmitPage) (js "a@b.com")).
    + apply getItem_setItem.
    + discriminate.
  - apply (proj1 (proj2 (onDOMContentLoaded_prefill freshPage))).
    left. reflexivity.
Defined.

(** ** Accepted addresses *)

Lemma trimStart_no_space (s : list N) :
  Forall (λ c, isWhiteSpace c = false) s → trimStart s = s.
Proof. intros [|c s' Hc _]; simpl; [reflexivity | by rewrite Hc]. Qed.

Lemma trimStart_all_space (s post : list N) :
  Forall (λ c, isWhiteSpace c = true) s → trimStart (s ++ post) = trimStart post.
Proof. induction 1 as [|c s' Hc _ IH]; simpl; [reflexivity | by rewrite Hc]. Qed.

Lemma trimStart_head (c : N) (s : list N) :
  isWhiteSpace c = false → trimStart (c :: s) = c :: s.
Proof. intros Hc. simpl. by rewrite Hc. Qed.

(** Padding of whitespace around a string that neither starts nor ends with
    whitespace is exactly what [trim] takes off. *)
Lemma trim_padded (pre s post : list N) :
  Forall (λ c, isWhiteSpace c = true) pre →
  Forall (λ c, isWhiteSpace c = true) post →
  s ≠ [] → Forall (λ c, isWhiteSpace c = false) s →
  trim (pre ++ s ++ post) = s.
Proof.
  intros Hpre Hpost Hne Hs. unfold trim, trimEnd.
  rewrite trimStart_all_space by assumption.
  destruct s as [|c s]; [congruence|].
  inversion Hs as [|? ? Hc Hs']; subst.
  rewrite <- app_comm_cons, trimStart_head by assumption.
  rewrite app_comm_cons, rev_app_distr.
  rewrite trimStart_all_space by (by apply Forall_rev).
  rewrite trimStart_no_space by (by apply Forall_rev).
  apply rev_involutive.
Qed.

Lemma emailShape_no_space (s : list N) :
  emailShape s → s ≠ [] ∧ Forall (λ c, isWhiteSpace c = false) s.
Proof.
  intros (l & d & t & -> & Hl & _ & _ & Hal & Had & Hat). split.
  - destruct l; [congruence | discriminate].
  - assert (Hplain : ∀ x, Forall plainChar x
                          → Forall (λ c, isWhiteSpace c = false) x).
    { intros x Hx. eapply Forall_impl; [exact Hx|]. intros c [Hc _]. exact Hc. }
    repeat (apply Forall_app; split); auto; by repeat constructor.
Qed.

Lemma isValidEmail_trim (s : list N) : isValidEmail s = true → trim s = s.
Proof.
  intros Hv. apply isValidEmail_emailShape, emailShape_no_space in Hv as [Hne Hs].
  rewrite <- (app_nil_r s) at 1. by apply (trim_padded [] s []).
Qed.

(** X6. An address that the pattern accepts has exactly one @, contains no
    whitespace, is at least five code units long, and is left as it is by
    [trim]. *)
Theorem isValidEmail_facts (s : list N) :
  isValidEmail s = true →
  (∃ l r : list N, s = l ++ [0x40] ++ r ∧ (0x40 ∉ l) ∧ (0x40 ∉ r))
  ∧ Forall (λ c, isWhiteSpace c = false) s
  ∧ (5 <= length s)%nat
  ∧ trim s = s.
Proof.
  intros Hv. split; [|split; [|split]].
  - apply isValidEmail_emailShape in Hv
      as (l & d & t & -> & _ & _ & _ & Hal & Had & Hat).
    assert (Hplain : ∀ x, Forall plainChar x → 0x40 ∉ x).
    { intros x Hx Hin. rewrite Forall_forall in Hx.
      destruct (Hx _ Hin) as [_ Hne]. congruence. }
    exists l, (d ++ [0x2E] ++ t). split; [reflexivity|]. split; [auto|].
    rewrite !elem_of_app. intros [Hin | [Hin | Hin]].
    + exact (Hplain d Had Hin).
    + apply list_elem_of_singleton in Hin. discriminate.
    + exact (Hplain t Hat Hin).
  - by apply emailShape_no_space, isValidEmail_emailShape.
  - apply isValidEmail_emailShape in Hv
      as (l & d & t & -> & Hl & Hd & Ht & _).
    rewrite !length_app. simpl.
    destruct l; [congruence|]. destruct d; [congruence|].
    destruct t; [congruence|]. simpl. lia.
  - by apply isValidEmail_trim.
Qed.

(** X6 on an address with a dot in every part. *)
Lemma isValidEmail_facts_witness :
  isValidEmail (js "first.last@mail.example.org") = true
  ∧ trim (js "first.last@mail.example.org") = js "first.last@mail.example.org".
Proof.
  split; [reflexivity|].
  apply (isValidEmail_facts (js "first.last@mail.example.org") eq_refl).
Defined.

(** ** Submission, continued *)

Lemma onSubmit_valid_eq (pg : Page) :
  validateForm (trim (emailInputValue pg)) (passwordInputValue pg) = true →
  onSubmit pg
  = navigateToDashboard
      (if rememberMeChecked pg
       then setItem (js "rememberedEmail") (trim (emailInputValue pg)) pg
       else removeItem (js "rememberedEmail") pg).
Proof. intros Hv. unfold onSubmit. rewrite Hv. reflexivity. Qed.

Lemma trim_all_space (s : list N) :
  Forall (λ c, isWhiteSpace c = true) s → trim s = [].
Proof.
  intros Hs. unfold trim.
  rewrite <- (app_nil_r s), trimStart_all_space by assumption. reflexivity.
Qed.

Lemma validateForm_padded (pre e post password : list N) :
  Forall (λ c, isWhiteSpace c = true) pre →
  Forall (λ c, isWhiteSpace c = true) post →
  isValidEmail e = true → password ≠ [] →
  trim (pre ++ e ++ post) = e
  ∧ validateForm (trim (pre ++ e ++ post)) password = true.
Proof.
  intros Hpre Hpost He Hp.
  assert (Htrim : trim (pre ++ e ++ post) = e).
  { apply isValidEmail_emailShape, emailShape_no_space in He as [Hne Hs].
    by apply trim_padded. }
  split; [exact Htrim|]. rewrite Htrim. apply validateForm_true.
  split; [|split; [|exact He]].
  - apply truthy_true.
    by apply isValidEmail_emailShape, emailShape_no_space in He as [Hne _].
  - by apply truthy_true.
Qed.

(** X7. Whitespace typed around an address does not matter: when the address
    itself is accepted by the pattern and the password is not empty, a
    submission with the box checked stores the address without the padding
    and arms the redirect. *)
Theorem submitForm_padding_forgiven
    (pre e post password : list N) (pg : Page) :
  Forall (λ c, isWhiteSpace c = true) pre →
  Forall (λ c, isWhiteSpace c = true) post →
  isValidEmail e = true → password ≠ [] →
  getItem (js "rememberedEmail") (submitForm (pre ++ e ++ post) password true pg)
  = Some e
  ∧ timeouts (submitForm (pre ++ e ++ post) password true pg)
    = timeouts pg ++ [dashboardTimer].
Proof.
  intros Hpre Hpost He Hp.
  destruct (validateForm_padded pre e post password Hpre Hpost He Hp)
    as (Htrim & Hv).
  rewrite submitForm_onSubmit, onSubmit_valid_eq by exact Hv.
  page_fields. rewrite Htrim. split.
  - rewrite getItem_navigateToDashboard. apply getItem_setItem.
  - reflexivity.
Qed.

(** X7 with a tab in front of the address and a line break behind it. *)
Lemma submitForm_padding_forgiven_witness :
  getItem (js "rememberedEmail")
    (submitForm ([0x09] ++ js "a@b.com" ++ [0x0D; 0x0A]) (js "x") true freshPage)
  = Some (js "a@b.com").
Proof.
  apply (submitForm_padding_forgiven [0x09] (js "a@b.com") [0x0D; 0x0A]
           (js "x") freshPage).
  - repeat constructor.
  - repeat constructor.
  - reflexivity.
  - discriminate.
Defined.

(** X8. A submission whose email field holds nothing but whitespace, or
    whose password field is empty, is dropped: the page (store, timers,
    classes, fields) stays exactly as it was, whatever the other field and
    the checkbox hold. *)
Theorem onSubmit_blank_dropped (pg : Page) :
  Forall (λ c, isWhiteSpace c = true) (emailInputValue pg)
  ∨ passwordInputValue pg = [] →
  onSubmit pg = pg.
Proof.
  intros Hblank. unfold onSubmit. cbv zeta.
  replace (validateForm (trim (emailInputValue pg)) (passwordInputValue pg))
    with false; [reflexivity|].
  symmetry. destruct Hblank as [Hspace | Hempty].
  - rewrite (trim_all_space _ Hspace). reflexivity.
  - rewrite Hempty. unfold validateForm.
    destruct (truthy (trim (emailInputValue pg))); reflexivity.
Qed.

(** X8 on a form with spaces for an email and a password typed. *)
Lemma onSubmit_blank_dropped_witness :
  onSubmit (withEmailInputValue (js "   ") (withPasswordInputValue (js "pw")
              (withRememberMeChecked true freshPage)))
  = withEmailInputValue (js "   ") (withPasswordInputValue (js "pw")
      (withRememberMeChecked true freshPage)).
Proof.
  apply (onSubmit_blank_dropped
           (withEmailInputValue (js "   ") (withPasswordInputValue (js "pw")
              (withRememberMeChecked true freshPage)))).
  left. repeat constructor.
Defined.

(** ** Across page loads *)

(** X9. What a submission remembers is what the next page load shows: after
    a successful submission with the box checked, loading any page that has
    the resulting store puts the trimmed address in the email field and
    checks the box; after a successful submission with the box unchecked,
    loading leaves the email field and the box as the markup has them. *)
Theorem remembered_email_roundtrip
    (email password : list N) (pg pg' : Page) :
  validateForm (trim email) password = true →
  (localStorage pg' = localStorage (submitForm email password true pg)
   → emailInputValue (onDOMContentLoaded pg') = trim email
     ∧ rememberMeChecked (onDOMContentLoaded pg') = true)
  ∧ (localStorage pg' = localStorage (submitForm email password false pg)
     → emailInputValue (onDOMContentLoaded pg') = emailInputValue pg'
       ∧ rememberMeChecked (onDOMContentLoaded pg') = rememberMeChecked pg').
Proof.
  intros Hv.
  destruct (onDOMContentLoaded_fields pg')
    as (_ & _ & _ & _ & _ & _ & _ & _ & G9 & G10 & _).
  assert (Hne : truthy (trim email) = true)
    by (by apply validateForm_true in Hv as (? & _)).
  split; intros Hstore; rewrite G9, G10.
  - replace (getItem (js "rememberedEmail") pg')
      with (getItem (js "rememberedEmail") (submitForm email password true pg))
      by (unfold getItem; by rewrite Hstore).
    rewrite submitForm_onSubmit, onSubmit_valid_eq by exact Hv.
    rewrite getItem_navigateToDashboard. page_fields.
    rewrite getItem_setItem. cbn [default from_option id]. rewrite Hne. split; reflexivity.
  - replace (getItem (js "rememberedEmail") pg')
      with (getItem (js "rememberedEmail") (submitForm email password false pg))
      by (unfold getItem; by rewrite Hstore).
    rewrite submitForm_onSubmit, onSubmit_valid_eq by exact Hv.
    rewrite getItem_navigateToDashboard. page_fields.
    rewrite getItem_removeItem. split; reflexivity.
Qed.

(** X9 with a new visit after a remembered submission. *)
Lemma remembered_email_roundtrip_witness :
  emailInputValue
    (onDOMContentLoaded
       (withLocalStorage
          (λ _, localStorage (submitForm (js " a@b.com") (js "x") true freshPage))
          freshPage))
  = js "a@b.com".
Proof.
  apply (proj1 (remembered_email_roundtrip (js " a@b.com") (js "x") freshPage
                  (withLocalStorage
                     (λ _, localStorage
                             (submitForm (js " a@b.com") (js "x") true freshPage))
                     freshPage)
                  eq_refl)).
  reflexivity.
Defined.

(** X10. A remembered address can be submitted again as it is: on a page
    whose store holds an accepted address, loading the page, typing any
    non-empty password and submitting passes validation, arms the redirect
    and keeps the same address remembered. *)
Theorem remembered_email_resubmits (v password : list N) (pg : Page) :
  getItem (js "rememberedEmail") pg = Some v →
  isValidEmail v = true → password ≠ [] →
  getItem (js "rememberedEmail")
    (run [DOMContentLoaded; PasswordTyped password; LoginFormSubmit] pg)
  = Some v
  ∧ timeouts (run [DOMContentLoaded; PasswordTyped password; LoginFormSubmit] pg)
    = timeouts pg ++ [dashboardTimer].
Proof.
  intros Hget Hvalid Hp. cbn [run handle].
  destruct (onDOMContentLoaded_fields pg)
    as (G1 & _ & _ & _ & _ & _ & _ & _ & G9 & G10 & _ & G12).
  assert (Hne : truthy v = true).
  { apply truthy_true.
    by apply isValidEmail_emailShape, emailShape_no_space in Hvalid as [? _]. }
  rewrite Hget in G9, G10. cbn [default from_option id] in G9, G10. rewrite Hne in G9, G10.
  assert (Hv : validateForm
                 (trim (emailInputValue
                          (withPasswordInputValue password (onDOMContentLoaded pg))))
                 (passwordInputValue
                    (withPasswordInputValue password (onDOMContentLoaded pg)))
               = true).
  { page_fields. rewrite G9, (isValidEmail_trim v Hvalid).
    apply validateForm_true. split; [exact Hne|].
    split; [by apply truthy_true | exact Hvalid]. }
  rewrite (onSubmit_valid_eq _ Hv). page_fields. rewrite G10, G9.
  rewrite (isValidEmail_trim v Hvalid). split.
  - rewrite getItem_navigateToDashboard. apply getItem_setItem.
  - rewrite (proj1 (proj2 (navigateToDashboard_effect _))).
    page_fields. rewrite G12. reflexivity.
Qed.

(** X10 on the page with a remembered address. *)
Lemma remembered_email_resubmits_witness :
  getItem (js "rememberedEmail")
    (run [DOMContentLoaded; PasswordTyped (js "pw"); LoginFormSubmit]
       staleSubmitPage)
  = Some (js "a@b.com").
Proof.
  apply (remembered_email_resubmits (js "a@b.com") (js "pw") staleSubmitPage).
  - apply getItem_setItem.
  - reflexivity.
  - discriminate.
Defined.

(** X11. The theme chosen with the toggle is the theme the next page load
    shows: loading any page that has the store left by [toggleTheme] puts
    the same value on the document root and renders the toggle the same
    way. *)
Theorem theme_roundtrip (pg pg' : Page) :
  localStorage pg' = localStorage (toggleTheme pg) →
  dataTheme (onDOMContentLoaded pg') = dataTheme (toggleTheme pg)
  ∧ sunIconOpacity (onDOMContentLoaded pg') = sunIconOpacity (toggleTheme pg)
  ∧ moonIconOpacity (onDOMContentLoaded pg') = moonIconOpacity (toggleTheme pg)
  ∧ themeLabelText (onDOMContentLoaded pg') = themeLabelText (toggleTheme pg).
Proof.
  intros Hstore.
  destruct (onDOMContentLoaded_fields pg') as (_ & G2 & G3 & G4 & G5 & _).
  rewrite (savedTheme_localStorage _ _ Hstore) in G2, G3, G4, G5.
  rewrite G2, G3, G4, G5.
  destruct (decide_light (dataTheme pg)) as [Hl | Hnl].
  - destruct (toggleTheme_light pg Hl) as (-> & Hget & (-> & -> & ->)).
    unfold savedTheme. rewrite Hget. repeat split.
  - destruct (toggleTheme_other pg Hnl) as (-> & Hget & (-> & -> & ->)).
    unfold savedTheme. rewrite Hget. repeat split.
Qed.

(** X11 with a new visit after one toggle on a first visit. *)
Lemma theme_roundtrip_witness :
  themeLabelText
    (onDOMContentLoaded
       (withLocalStorage (λ _, localStorage (toggleTheme freshPage)) freshPage))
  = themeLabelText (toggleTheme freshPage).
Proof.
  apply (theme_roundtrip freshPage
           (withLocalStorage (λ _, localStorage (toggleTheme freshPage)) freshPage)).
  reflexivity.
Defined.

(** Events other than page load and the theme toggle leave the toggle's
    render alone. *)
Lemma handle_render_frame (ev : Event) (pg : Page) :
  ev ≠ DOMContentLoaded → ev ≠ ThemeToggleClick →
  sunIconOpacity (handle ev pg) = sunIconOpacity pg
  ∧ moonIconOpacity (handle ev pg) = moonIconOpacity pg
  ∧ themeLabelText (handle ev pg) = themeLabelText pg.
Proof.
  intros Hload Htoggle. destruct ev; try congruence; cbn [handle].
  - unfold togglePasswordVisibility.
    destruct (strict_eq (passwordInputType pg) (js "password")); repeat split.
  - repeat split.
  - unfold onSubmit.
    destruct (validateForm _ _); [|repeat split].
    destruct (rememberMeChecked pg); repeat split.
  - repeat split.
  - repeat split.
  - repeat split.
Qed.

Lemma renderMatchesRoot_onDOMContentLoaded (pg : Page) :
  renderMatchesRoot (onDOMContentLoaded pg).
Proof.
  destruct (onDOMContentLoaded_fields pg) as (_ & G2 & G3 & G4 & G5 & _).
  unfold renderMatchesRoot, darkRender, lightRender.
  rewrite G2, G3, G4, G5. case_bool_decide as Hd.
  - left. rewrite Hd. repeat split.
  - right. split; [congruence | repeat split].
Qed.

Lemma renderMatchesRoot_handle (ev : Event) (pg : Page) :
  renderMatchesRoot pg → renderMatchesRoot (handle ev pg).
Proof.
  intros Hr.
  destruct (decide (ev = DOMContentLoaded)) as [-> | Hload];
    [apply renderMatchesRoot_onDOMContentLoaded|].
  destruct (decide (ev = ThemeToggleClick)) as [-> | Htoggle];
    [apply renderMatchesRoot_toggleTheme|].
  destruct (handle_theme_frame ev pg Hload Htoggle) as (Hdt & _).
  destruct (handle_render_frame ev pg Hload Htoggle) as (Hs & Hm & Hl).
  unfold renderMatchesRoot, darkRender, lightRender in *.
  rewrite Hdt, Hs, Hm, Hl. exact Hr.
Qed.

(** X12. Once the page has been loaded or the theme toggled, the toggle
    always shows what the document root says, whatever happens next: dark
    icons and the "Dark Mode" label when the root attribute is "dark", light
    icons and the "Light Mode" label for any other value. *)
Theorem render_always_matches_root (pg : Page) (evs : list Event) :
  renderMatchesRoot (run evs (onDOMContentLoaded pg))
  ∧ renderMatchesRoot (run evs (toggleTheme pg)).
Proof.
  assert (Hrun : ∀ evs pg, renderMatchesRoot pg → renderMatchesRoot (run evs pg)).
  { clear. induction evs as [|ev evs IH]; intros pg H; simpl; [exact H|].
    apply IH, renderMatchesRoot_handle, H. }
  split; apply Hrun.
  - apply renderMatchesRoot_onDOMContentLoaded.
  - apply renderMatchesRoot_toggleTheme.
Qed.

(** ** Navigation, continued *)

Lemma classListAdd_idempotent (token : list N) (l : list (list N)) :
  classListAdd token (classListAdd token l) = classListAdd token l.
Proof.
  unfold classListAdd at 1.
  rewrite bool_decide_eq_true_2 by apply classListAdd_elem. reflexivity.
Qed.

(** One event either leaves timers and classes alone or, if it is a login
    event, arms one redirect and adds the fade-out class. *)
Lemma handle_navigation (ev : Event) (pg : Page) :
  (timeouts (handle ev pg) = timeouts pg
   ∧ containerClassList (handle ev pg) = containerClassList pg)
  ∨ (isLoginEvent ev = true
     ∧ timeouts (handle ev pg) = timeouts pg ++ [dashboardTimer]
     ∧ containerClassList (handle ev pg)
       = classListAdd (js "fade-out") (containerClassList pg)).
Proof.
  destruct ev; cbn [handle isLoginEvent].
  - left. destruct (onDOMContentLoaded_fields pg)
      as (_ & _ & _ & _ & _ & _ & _ & _ & _ & _ & G11 & G12). auto.
  - left. destruct (toggleTheme_frame pg) as (_ & _ & _ & _ & _ & ? & ? & _).
    auto.
  - left. unfold togglePasswordVisibility.
    destruct (strict_eq (passwordInputType pg) (js "password")); auto.
  - right. repeat split.
  - unfold onSubmit. destruct (validateForm _ _); [right | left; auto].
    destruct (rememberMeChecked pg); repeat split.
  - left. auto.
  - left. auto.
  - left. auto.
Qed.

(** X13. The script only ever schedules one thing: over any sequence of
    events the timer list grows by redirects to "dashboard.html" after 200
    ms, at most one per quick-login click or form submission and none
    without them; the container gains the fade-out class exactly when at
    least one redirect was armed, and gains it once. *)
Theorem run_navigation (evs : list Event) (pg : Page) :
  ∃ n : nat,
    (n <= loginEventCount evs)%nat
    ∧ timeouts (run evs pg) = timeouts pg ++ replicate n dashboardTimer
    ∧ containerClassList (run evs pg)
      = (match n with
         | O => containerClassList pg
         | S _ => classListAdd (js "fade-out") (containerClassList pg)
         end).
Proof.
  revert pg. induction evs as [|ev evs IH]; intros pg.
  - exists O. simpl. rewrite app_nil_r. repeat split. unfold loginEventCount.
    simpl. lia.
  - cbn [run]. destruct (IH (handle ev pg)) as (n & Hn & Ht & Hc).
    assert (Hle : (loginEventCount evs <= loginEventCount (ev :: evs))%nat).
    { unfold loginEventCount. simpl. destruct (isLoginEvent ev); simpl; lia. }
    destruct (handle_navigation ev pg) as [(Ht0 & Hc0) | (Hlogin & Ht0 & Hc0)].
    + exists n. rewrite Ht, Hc, Ht0, Hc0. split; [lia|]. split; reflexivity.
    + exists (S n). rewrite Ht, Hc, Ht0, Hc0. split; [|split].
      * unfold loginEventCount in *. simpl. rewrite Hlogin. simpl. lia.
      * rewrite <- app_assoc. reflexivity.
      * destruct n; [reflexivity | apply classListAdd_idempotent].
Qed.

(** ** The store, continued *)

Lemma handle_store_frame (ev : Event) (pg : Page) (k : list N) :
  k ≠ js "theme" → k ≠ js "rememberedEmail" →
  getItem k (handle ev pg) = getItem k pg.
Proof.
  intros Ht Hr. destruct ev; cbn [handle].
  - apply getItem_onDOMContentLoaded.
  - by apply toggleTheme_frame.
  - unfold togglePasswordVisibility.
    destruct (strict_eq (passwordInputType pg) (js "password")); reflexivity.
  - reflexivity.
  - unfold onSubmit. destruct (validateForm _ _); [|reflexivity].
    rewrite getItem_navigateToDashboard. destruct (rememberMeChecked pg).
    + apply getItem_setItem_ne. congruence.
    + apply getItem_removeItem_ne. congruence.
  - reflexivity.
  - reflexivity.
  - reflexivity.
Qed.

Lemma handle_theme_value (ev : Event) (pg : Page) :
  getItem (js "theme") (handle ev pg) = getItem (js "theme") pg
  ∨ getItem (js "theme") (handle ev pg) = Some (js "light")
  ∨ getItem (js "theme") (handle ev pg) = Some (js "dark").
Proof.
  destruct (decide (ev = ThemeToggleClick)) as [-> | Htoggle].
  - cbn [handle]. destruct (decide_light (dataTheme pg)) as [Hl | Hnl].
    + right. right. apply (toggleTheme_light pg Hl).
    + right. left. apply (toggleTheme_other pg Hnl).
  - left. destruct (decide (ev = DOMContentLoaded)) as [-> | Hload].
    + apply getItem_onDOMContentLoaded.
    + apply (handle_theme_frame ev pg Hload Htoggle).
Qed.

(** X14. The script keeps to its two keys: over any sequence of events every
    other key of the store reads as before, and the theme key reads as
    before or holds "light" or "dark". *)
Theorem run_store_footprint (evs : list Event) (pg : Page) :
  (∀ k, k ≠ js "theme" → k ≠ js "rememberedEmail"
        → getItem k (run evs pg) = getItem k pg)
  ∧ (getItem (js "theme") (run evs pg) = getItem (js "theme") pg
     ∨ getItem (js "theme") (run evs pg) = Some (js "light")
     ∨ getItem (js "theme") (run evs pg) = Some (js "dark")).
Proof.
  revert pg. induction evs as [|ev evs IH]; intros pg; cbn [run].
  - split; [reflexivity | by left].
  - destruct (IH (handle ev pg)) as (Hframe & Htheme). split.
    + intros k Hk1 Hk2. rewrite (Hframe k Hk1 Hk2).
      by apply handle_store_frame.
    + destruct Htheme as [-> | Hv]; [apply handle_theme_value | by right].
Qed.

(** X14 on a store with a foreign key, after a toggle and a remembered
    submission. *)
Lemma run_store_footprint_witness :
  getItem (js "token")
    (run [ThemeToggleClick; EmailTyped (js "a@b.com"); PasswordTyped (js "x");
          RememberMeSet true; LoginFormSubmit]
       (setItem (js "token") (js "abc") freshPage))
  = Some (js "abc").
Proof.
  rewrite (proj1 (run_store_footprint
                    [ThemeToggleClick; EmailTyped (js "a@b.com");
                     PasswordTyped (js "x"); RememberMeSet true; LoginFormSubmit]
                    (setItem (js "token") (js "abc") freshPage)) (js "token")).
  - apply getItem_setItem.
  - intros H. vm_compute in H. discriminate.
  - intros H. vm_compute in H. discriminate.
Defined.

(** ** Independent controls *)

Lemma theme_ne_rememberedEmail_key : js "rememberedEmail" ≠ js "theme".
Proof. intros H. vm_compute in H. discriminate. Qed.

(** What [toggleTheme] writes can be written before or after any event other
    than page load and the toggle itself. *)
Lemma handle_theme_writes_commute
    (ev : Event) (sun moon label t : list N) (pg : Page) :
  ev ≠ DOMContentLoaded → ev ≠ ThemeToggleClick →
  handle ev (withThemeToggle sun moon label
               (setItem (js "theme") t (withDataTheme (Some t) pg)))
  = withThemeToggle sun moon label
      (setItem (js "theme") t (withDataTheme (Some t) (handle ev pg))).
Proof.
  intros Hload Htoggle. destruct ev; try congruence; cbn [handle].
  - unfold togglePasswordVisibility. cbv zeta. page_fields.
    destruct (strict_eq (passwordInputType pg) (js "password")); reflexivity.
  - reflexivity.
  - unfold onSubmit. cbv zeta. page_fields.
    destruct (validateForm _ _); [|reflexivity].
    destruct (rememberMeChecked pg);
      apply page_ext; unfold navigateToDashboard; page_fields;
      try reflexivity.
    + apply insert_insert_ne, theme_ne_rememberedEmail_key.
    + apply delete_insert_ne, theme_ne_rememberedEmail_key.
  - reflexivity.
  - reflexivity.
  - reflexivity.
Qed.

(** X15. The theme toggle is independent of everything but page load: with
    any other event (password toggle, quick login, form submission, the
    user editing the form) it commutes, so the page is the same whichever
    of the two happens first. *)
Theorem toggleTheme_commutes (ev : Event) (pg : Page) :
  ev ≠ DOMContentLoaded →
  handle ev (toggleTheme pg) = toggleTheme (handle ev pg).
Proof.
  intros Hload.
  destruct (decide (ev = ThemeToggleClick)) as [-> | Htoggle]; [reflexivity|].
  destruct (handle_theme_frame ev pg Hload Htoggle) as (Hdt & _).
  destruct (decide_light (dataTheme pg)) as [Hl | Hnl].
  - rewrite (toggleTheme_light_eq pg Hl).
    rewrite (toggleTheme_light_eq (handle ev pg)) by (by rewrite Hdt).
    by apply handle_theme_writes_commute.
  - rewrite (toggleTheme_other_eq pg Hnl).
    rewrite (toggleTheme_other_eq (handle ev pg)) by (by rewrite Hdt).
    by apply handle_theme_writes_commute.
Qed.

(** X15 with a remembered submission and a toggle in both orders. *)
Lemma toggleTheme_commutes_witness :
  handle LoginFormSubmit (toggleTheme filledPage)
  = toggleTheme (handle LoginFormSubmit filledPage).
Proof.
  apply (toggleTheme_commutes LoginFormSubmit filledPage). discriminate.
Defined.

Lemma handle_password_frame (ev : Event) (pg : Page) :
  ev ≠ PasswordToggleClick →
  passwordInputType (handle ev pg) = passwordInputType pg.
Proof.
  intros Hpw. destruct ev; try congruence; cbn [handle]; try reflexivity.
  - apply (onDOMContentLoaded_fields pg).
  - apply (toggleTheme_frame pg).
  - unfold onSubmit. destruct (validateForm _ _); [|reflexivity].
    destruct (rememberMeChecked pg); reflexivity.
Qed.

(** What [togglePasswordVisibility] writes can be written before or after
    any other event. *)
Lemma handle_password_writes_commute
    (ev : Event) (icon : list N) (type : option (list N)) (pg : Page) :
  ev ≠ PasswordToggleClick →
  handle ev (withPasswordIconClassName icon (withPasswordInputType type pg))
  = withPasswordIconClassName icon (withPasswordInputType type (handle ev pg)).
Proof.
  intros Hpw. destruct ev; try congruence; cbn [handle]; try reflexivity.
  - destruct (onDOMContentLoaded_fields
                (withPasswordIconClassName icon (withPasswordInputType type pg)))
      as (H1 & H2 & H3 & H4 & H5 & H6 & H7 & H8 & H9 & H10 & H11 & H12).
    destruct (onDOMContentLoaded_fields pg)
      as (G1 & G2 & G3 & G4 & G5 & G6 & G7 & G8 & G9 & G10 & G11 & G12).
    apply page_ext; page_fields;
      rewrite ?H1, ?H2, ?H3, ?H4, ?H5, ?H6, ?H7, ?H8, ?H9, ?H10, ?H11, ?H12,
              ?G1, ?G2, ?G3, ?G4, ?G5, ?G6, ?G7, ?G8, ?G9, ?G10, ?G11, ?G12;
      reflexivity.
  - destruct (decide_light (dataTheme pg)) as [Hl | Hnl].
    + rewrite (toggleTheme_light_eq pg Hl).
      rewrite toggleTheme_light_eq by exact Hl. reflexivity.
    + rewrite (toggleTheme_other_eq pg Hnl).
      rewrite toggleTheme_other_eq by exact Hnl. reflexivity.
  - unfold onSubmit. cbv zeta. page_fields.
    destruct (validateForm _ _); [|reflexivity].
    destruct (rememberMeChecked pg); reflexivity.
Qed.

(** X16. The password toggle is independent of every other event, page load
    included: the page is the same whichever of the two happens first. *)
Theorem togglePasswordVisibility_commutes (ev : Event) (pg : Page) :
  handle ev (togglePasswordVisibility pg)
  = togglePasswordVisibility (handle ev pg).
Proof.
  destruct (decide (ev = PasswordToggleClick)) as [-> | Hpw]; [reflexivity|].
  pose proof (handle_password_frame ev pg Hpw) as Htype.
  destruct (decide_password (passwordInputType pg)) as [Hp | Hnp].
  - rewrite (togglePasswordVisibility_password pg Hp).
    rewrite (togglePasswordVisibility_password (handle ev pg))
      by (by rewrite Htype).
    by apply handle_password_writes_commute.
  - rewrite (togglePasswordVisibility_other pg Hnp).
    rewrite (togglePasswordVisibility_other (handle ev pg))
      by (by rewrite Htype).
    by apply handle_password_writes_commute.
Qed.

(** ** Submission and navigation, event by event *)

(** X17. A submission never touches what the user typed or the look of the
    page: accepted or not, it leaves the email field (padding included), the
    password field and its type, the checkbox, the root attribute, the
    toggle render and every store key other than [rememberedEmail] as they
    were. *)
Theorem onSubmit_frame (pg : Page) :
  emailInputValue (onSubmit pg) = emailInputValue pg
  ∧ passwordInputValue (onSubmit pg) = passwordInputValue pg
  ∧ passwordInputType (onSubmit pg) = passwordInputType pg
  ∧ passwordIconClassName (onSubmit pg) = passwordIconClassName pg
  ∧ rememberMeChecked (onSubmit pg) = rememberMeChecked pg
  ∧ dataTheme (onSubmit pg) = dataTheme pg
  ∧ sunIconOpacity (onSubmit pg) = sunIconOpacity pg
  ∧ moonIconOpacity (onSubmit pg) = moonIconOpacity pg
  ∧ themeLabelText (onSubmit pg) = themeLabelText pg
  ∧ (∀ k, k ≠ js "rememberedEmail" → getItem k (onSubmit pg) = getItem k pg).
Proof.
  destruct (validateForm (trim (emailInputValue pg)) (passwordInputValue pg))
    eqn:Hv.
  - rewrite (onSubmit_valid_eq pg Hv).
    destruct (rememberMeChecked pg) eqn:Hr;
      (do 9 (split; [first [reflexivity | exact Hr]|]));
      intros k Hk; rewrite getItem_navigateToDashboard.
    + apply getItem_setItem_ne. congruence.
    + apply getItem_removeItem_ne. congruence.
  - assert (Heq : onSubmit pg = pg) by (unfold onSubmit; by rewrite Hv).
    rewrite Heq. repeat split.
Qed.

(** X18. An event arms the redirect exactly when it is a quick-login click
    or a submission whose trimmed email and password pass validation; it
    then arms one redirect to "dashboard.html" after 200 ms, behind the
    timers already pending, and in every other case the timers are as
    before. *)
Theorem handle_arms_redirect (ev : Event) (pg : Page) :
  timeouts (handle ev pg)
  = timeouts pg ++ (if navigates ev pg then [dashboardTimer] else []).
Proof.
  destruct ev; cbn [handle navigates]; rewrite ?app_nil_r.
  - apply (onDOMContentLoaded_fields pg).
  - apply (toggleTheme_frame pg).
  - unfold togglePasswordVisibility.
    destruct (strict_eq (passwordInputType pg) (js "password")); reflexivity.
  - reflexivity.
  - destruct (validateForm (trim (emailInputValue pg)) (passwordInputValue pg))
      eqn:Hv.
    + rewrite (onSubmit_valid_eq pg Hv).
      destruct (rememberMeChecked pg); reflexivity.
    + unfold onSubmit. rewrite Hv. by rewrite app_nil_r.
  - reflexivity.
  - reflexivity.
  - reflexivity.
Qed.

(** X19. Submitting the same form twice stores what submitting it once
    stores: the second submission validates the same fields and writes (or
    removes) the same key again; only a second redirect is armed. *)
Theorem onSubmit_twice_store (pg : Page) :
  localStorage (onSubmit (onSubmit pg)) = localStorage (onSubmit pg)
  ∧ timeouts (onSubmit (onSubmit pg))
    = timeouts pg
      ++ (if validateForm (trim (emailInputValue pg)) (passwordInputValue pg)
          then [dashboardTimer; dashboardTimer] else []).
Proof.
  destruct (validateForm (trim (emailInputValue pg)) (passwordInputValue pg))
    eqn:Hv.
  - rewrite (onSubmit_valid_eq pg Hv).
    destruct (rememberMeChecked pg) eqn:Hr.
    + rewrite onSubmit_valid_eq by exact Hv.
      unfold navigateToDashboard. page_fields. rewrite Hr. page_fields.
      split; [apply insert_insert_eq | by rewrite <- app_assoc].
    + rewrite onSubmit_valid_eq by exact Hv.
      unfold navigateToDashboard. page_fields. rewrite Hr. page_fields.
      split; [apply delete_delete_eq | by rewrite <- app_assoc].
  - assert (Heq : onSubmit pg = pg) by (unfold onSubmit; by rewrite Hv).
    rewrite !Heq, app_nil_r. split; reflexivity.
Qed.

(** ** Re-initialising the theme *)

Lemma renderMatchesRoot_run (evs : list Event) (pg : Page) :
  renderMatchesRoot pg → renderMatchesRoot (run evs pg).
Proof.
  revert pg. induction evs as [|ev evs IH]; intros pg H; simpl; [exact H|].
  apply IH, renderMatchesRoot_handle, H.
Qed.

Lemma initTheme_fields (pg : Page) :
  initTheme pg
  = withThemeToggle
      (if bool_decide (savedTheme pg = js "dark") then js "0.5" else js "1")
      (if bool_decide (savedTheme pg = js "dark") then js "1" else js "0.5")
      (if bool_decide (savedTheme pg = js "dark")
       then js "Dark Mode" else js "Light Mode")
      (withDataTheme (Some (savedTheme pg)) pg).
Proof.
  unfold initTheme, updateThemeToggle. cbv zeta.
  case_bool_decide; reflexivity.
Qed.

Lemma initTheme_noop_iff (pg : Page) :
  initTheme pg = pg ↔ themeAgrees pg ∧ renderMatchesRoot pg.
Proof.
  unfold themeAgrees, renderMatchesRoot, darkRender, lightRender.
  rewrite initTheme_fields. split.
  - intros Heq.
    pose proof (f_equal dataTheme Heq) as Hdt.
    pose proof (f_equal sunIconOpacity Heq) as Hs.
    pose proof (f_equal moonIconOpacity Heq) as Hm.
    pose proof (f_equal themeLabelText Heq) as Hl.
    clear Heq. page_fields in Hdt. page_fields in Hs. page_fields in Hm.
    page_fields in Hl. rewrite <- Hdt, <- Hs, <- Hm, <- Hl.
    split; [reflexivity|]. case_bool_decide as Hd.
    + left. rewrite Hd. repeat split.
    + right. split; [congruence | repeat split].
  - intros (Hroot & Hrender). case_bool_decide as Hd.
    + destruct Hrender as [(_ & Hs & Hm & Hl) | (Hnd & _)];
        [|rewrite Hroot, Hd in Hnd; congruence].
      apply page_ext; page_fields; congruence.
    + destruct Hrender as [(Hdark & _) | (_ & Hs & Hm & Hl)];
        [rewrite Hroot in Hdark; congruence|].
      apply page_ext; page_fields; congruence.
Qed.

(** X20. [initTheme] changes nothing exactly on the pages whose root
    attribute is the theme read from the store and whose toggle shows it;
    so once the page has been loaded or the theme toggled, re-initialising
    the theme is a no-op after any further events. *)
Theorem initTheme_noop (pg : Page) (evs : list Event) :
  (initTheme pg = pg ↔ themeAgrees pg ∧ renderMatchesRoot pg)
  ∧ initTheme (run evs (onDOMContentLoaded pg)) = run evs (onDOMContentLoaded pg)
  ∧ initTheme (run evs (toggleTheme pg)) = run evs (toggleTheme pg).
Proof.
  split; [apply initTheme_noop_iff|]. split; apply initTheme_noop_iff; split.
  - apply themeAgrees_run, themeAgrees_onDOMContentLoaded.
  - apply renderMatchesRoot_run, renderMatchesRoot_onDOMContentLoaded.
  - apply themeWritten_agrees, themeWritten_run, themeWritten_toggleTheme.
  - apply renderMatchesRoot_run, renderMatchesRoot_toggleTheme.
Qed.
